(** * hugging_py_face.nlp: the NLP client of the hosted inference API

    A shallow embedding of [src/hugging_py_face/nlp.py].  Every task method
    of the class [NLP] funnels into [_query], which resolves the URL, builds
    the request dictionary, posts it and parses the answer.  The embedding
    keeps what the Python code can observe:

    - JSON-shaped Python values are trees ([json]);
    - the dictionaries handed in as [parameters] and [options] are objects
      with identity: they live in a store ([heap]) and are passed by
      reference, because [zero_shot_classification] writes into one;
    - a call runs in a state-and-exception monad [M]: a raised Python
      exception keeps the effects that happened before it;
    - the libraries the module imports ([requests], [json], the [bytes]
      decoder) are the fields of the class [Runtime]: the theorems hold
      for every behaviour of them;
    - every request handed to [requests.request] is logged in [sent]. *)

From stdpp Require Import gmap strings list fin_maps pretty.
From Stdlib Require Import Floats.PrimFloat Floats.FloatOps Floats.SpecFloat.
From Stdlib Require Import Strings.Byte Strings.Ascii.

Set Warnings "-register-all".


(** ** Python values *)

(** What [json.loads] can return and [json.dumps] can print.  A Python
    [float] is an IEEE double, as [PrimFloat.float] is.  A [dict] keeps its
    insertion order, so it is an association list. *)
Inductive json : Type :=
| JNull
| JBool (b : bool)
| JInt (z : Z)
| JFloat (f : float)
| JStr (s : string)
| JList (l : list json)
| JDict (d : list (string * json)).

(** The content of a dictionary object. *)
Abbreviation dict := (list (string * json)).

(** [d[k]] as an option: the first binding of [k]. *)
Fixpoint dict_get {A : Type} (k : string) (d : list (string * A)) : option A :=
  match d with
  | [] => None
  | (k', v) :: d' => if String.eqb k k' then Some v else dict_get k d'
  end.

(** [d[k] = v]: an existing key keeps its place and takes the new value, a
    new key goes last. *)
Fixpoint dict_set {A : Type} (k : string) (v : A) (d : list (string * A))
  : list (string * A) :=
  match d with
  | [] => [(k, v)]
  | (k', v') :: d' =>
      if String.eqb k k' then (k, v) :: d' else (k', v') :: dict_set k v d'
  end.

(** ** Exceptions and results *)

Inductive exn : Type :=
| KeyError
| IndexError
| TypeError
| ValueError
| UnicodeDecodeError
| JSONDecodeError
| RequestException
| DanglingReference.
(* [DanglingReference] is not a Python exception: it is the model's answer
   to a location at which no object lives, which no Python caller can
   hold. *)

Inductive result (A : Type) : Type :=
| Ok (a : A)
| Raise (e : exn).
Arguments Ok {A} a.
Arguments Raise {A} e.

(** ** The objects of a call *)

(** A location of the store of dictionary objects. *)
Abbreviation loc := nat.

(** An entry of the request dictionary [data]: a value, or a reference to a
    caller's dictionary ([data['parameters'] = parameters] stores the
    object, not a copy). *)
Inductive pyobj : Type :=
| Val (j : json)
| Ref (l : loc).

(** What [requests.request(method, url, headers=..., data=...)] is given. *)
Record Request : Type := mkRequest {
  req_method : string;
  req_url : string;
  req_headers : list (string * string);
  req_data : string
}.

(** What the client reads of the response: [response.content]; the status
    code is there and never looked at. *)
Record Response : Type := mkResponse {
  status_code : Z;
  content : list byte
}.

(** Modelled from the spec: the dictionary [ConfigParser().get_config_dict()]
    returns ([config_parser.py] is not among the sources): the base URL and
    the map from task name to default model id, under the keys the client
    reads, ['BASE_URL'] and ['TASK_MODEL_MAP']. *)
Record Config : Type := mkConfig {
  BASE_URL : string;
  TASK_MODEL_MAP : gmap string string
}.

(** An instance of the class [NLP]: its two attributes. *)
Record NLP : Type := mkNLP {
  api_token : string;
  config : Config
}.

(** ** The libraries *)

Class Runtime : Type := {
  (** the network and the service behind it *)
  World : Type;
  (** [requests.request]: an answer or an exception, and the service after *)
  requests_request : Request -> World -> result Response * World;
  (** [json.dumps] on a JSON-shaped value *)
  json_dumps : json -> string;
  (** [json.loads] *)
  json_loads : string -> result json;
  (** [bytes.decode("utf-8")] *)
  decode_utf8 : list byte -> result string
}.

(** ** State and monad *)

Record state `{Runtime} : Type := mkState {
  heap : gmap loc dict;
  client : NLP;
  sent : list Request;
  world : World
}.
Arguments mkState {_} _ _ _ _.

Definition M `{Runtime} (A : Type) : Type := state -> result A * state.

Section Monad.
Context `{RT : Runtime}.

Definition ret {A : Type} (a : A) : M A := fun st => (Ok a, st).

Definition raise {A : Type} (e : exn) : M A := fun st => (Raise e, st).

Definition bind {A B : Type} (m : M A) (k : A -> M B) : M B :=
  fun st =>
    match m st with
    | (Ok a, st') => k a st'
    | (Raise e, st') => (Raise e, st')
    end.

Definition lift {A : Type} (r : result A) : M A := fun st => (r, st).

Definition get_self : M NLP := fun st => (Ok (client st), st).

Definition get_heap : M (gmap loc dict) := fun st => (Ok (heap st), st).

Definition put_heap (h : gmap loc dict) : M unit :=
  fun st => (Ok tt, mkState h (client st) (sent st) (world st)).

(** The one place a request leaves the process: it is logged, then the
    library answers. *)
Definition http (r : Request) : M Response :=
  fun st =>
    let '(ans, w) := requests_request r (world st) in
    (ans, mkState (heap st) (client st) (sent st ++ [r]) w).
End Monad.

Notation "'let*' x ':=' m 'in' k" := (bind m (fun x => k))
  (at level 10, x name, m at level 100, k at level 200).

(** ** Python's subscripting and iteration on JSON-shaped values *)

(** A byte [10xxxxxx] continues a UTF-8 sequence. *)
Definition is_continuation (c : ascii) : bool :=
  match c with
  | Ascii _ _ _ _ _ _ b6 b7 => b7 && negb b6
  end.

(** The characters of a [str]: a string holds its UTF-8 bytes, a character
    is a leading byte with the continuation bytes after it. *)
Fixpoint str_chars (s : string) : list string :=
  match s with
  | EmptyString => []
  | String c s' =>
      let rest := str_chars s' in
      match s' with
      | EmptyString => [String c EmptyString]
      | String c' _ =>
          match rest with
          | g :: r =>
              if is_continuation c' then String c g :: r
              else String c EmptyString :: rest
          | [] => [String c EmptyString]
          end
      end
  end.

(** [for x in v]: a list yields its elements, a dict its keys, a str its
    characters; nothing else of JSON is iterable. *)
Definition py_iter (v : json) : result (list json) :=
  match v with
  | JList l => Ok l
  | JDict d => Ok (map (fun kv => JStr (fst kv)) d)
  | JStr s => Ok (map JStr (str_chars s))
  | _ => Raise TypeError
  end.

(** [isinstance(v, list)] *)
Definition is_list (v : json) : bool :=
  match v with
  | JList _ => true
  | _ => false
  end.

(** [v[0]].  The keys of a parsed JSON object are strings, so [0] is never
    one of them. *)
Definition getitem0 (v : json) : result json :=
  match v with
  | JList (x :: _) => Ok x
  | JList [] => Raise IndexError
  | JDict _ => Raise KeyError
  | JStr s =>
      match str_chars s with
      | c :: _ => Ok (JStr c)
      | [] => Raise IndexError
      end
  | _ => Raise TypeError
  end.

(** [v[k]] for a string [k]: only a dict takes a string subscript. *)
Definition getitem (k : string) (v : json) : result json :=
  match v with
  | JDict d =>
      match dict_get k d with
      | Some x => Ok x
      | None => Raise KeyError
      end
  | _ => Raise TypeError
  end.

Definition result_bind {A B : Type} (r : result A) (k : A -> result B)
  : result B :=
  match r with
  | Ok a => k a
  | Raise e => Raise e
  end.

(** A list comprehension [[f x for x in l]]: the first element on which
    [f] raises ends it. *)
Fixpoint comprehension {A B : Type} (f : A -> result B) (l : list A)
  : result (list B) :=
  match l with
  | [] => Ok []
  | x :: l' =>
      result_bind (f x) (fun y =>
      result_bind (comprehension f l') (fun ys => Ok (y :: ys)))
  end.

(** ** The table *)

(** What the adapters use of a pandas [DataFrame]: the length of its index
    and its named columns, in order.  The adapter changes the caller's
    table in place and returns it; here the changed table is the returned
    value.  The labels of the columns are taken to be distinct (with a
    repeated label pandas gives [df[column]] as a table, not as a
    column). *)
Record DataFrame : Type := mkDataFrame {
  index_len : nat;
  columns : list (string * list json)
}.

(** pandas's missing value. *)
Definition NaN : json := JFloat nan.

(** [df[column].tolist()] *)
Definition df_getitem (column : string) (df : DataFrame) : result (list json) :=
  match dict_get column (columns df) with
  | Some c => Ok c
  | None => Raise KeyError
  end.

(** [df[name] = value] for a list [value], as pandas does it: a table with
    no row takes its index from a non-empty [value] (the columns it had are
    filled with NaN); otherwise the lengths must agree, else pandas raises
    [ValueError: Length of values does not match length of index].  The
    values are kept as they are given, which is what pandas does with
    strings; a list of numbers it may convert to one numeric type, and
    that is not followed here: what is proved of the content of a written
    column is proved for strings. *)
Definition df_setitem (name : string) (value : list json) (df : DataFrame)
  : result DataFrame :=
  if Nat.eqb (index_len df) 0 && negb (Nat.eqb (length value) 0) then
    Ok (mkDataFrame (length value)
          (dict_set name value
             (map (fun c => (fst c, replicate (length value) NaN))
                  (columns df))))
  else if Nat.eqb (length value) (index_len df) then
    Ok (mkDataFrame (index_len df) (dict_set name value (columns df)))
  else Raise ValueError.

(** ** The class [NLP] *)

(** A keyword argument whose default is not [None]: left out, or passed. *)
Inductive kwarg (A : Type) : Type :=
| Omitted
| Passed (a : A).
Arguments Omitted {A}.
Arguments Passed {A} a.

(** The dictionary that the default [parameters = {}] of
    [zero_shot_classification] denotes: one object, made when the class
    body is executed, and bound to [parameters] in every call that leaves
    the argument out. *)
Definition zsc_default : loc := 0.

Section Client.
Context `{RT : Runtime}.

(** [__init__]: the token as given, the configuration as
    [get_config_dict()] returns it. *)
Definition __init__ (api_token : string) (get_config_dict : Config) : NLP :=
  mkNLP api_token get_config_dict.

(** The state once the module is imported and the client constructed:
    the store holds the default dictionary, still empty, and nothing was
    sent. *)
Definition boot (api_token : string) (get_config_dict : Config) (w : World)
  : state :=
  mkState {[ zsc_default := [] ]} (__init__ api_token get_config_dict) [] w.

(** What an entry of [data] is when [json.dumps] walks it. *)
Definition deref (h : gmap loc dict) (o : pyobj) : option json :=
  match o with
  | Val j => Some j
  | Ref l => JDict <$> h !! l
  end.

Definition deref_items (h : gmap loc dict) (data : list (string * pyobj))
  : option dict :=
  mapM (fun kv => pair (fst kv) <$> deref h (snd kv)) data.

(** [json.dumps(data)] *)
Definition dumps (data : list (string * pyobj)) : M string :=
  fun st =>
    match deref_items (heap st) data with
    | Some d => (Ok (json_dumps (JDict d)), st)
    | None => (Raise DanglingReference, st)
    end.

(** [target[k] = v] where [target] is [None] or a dictionary object. *)
Definition setitem (target : option loc) (k : string) (v : json) : M unit :=
  match target with
  | None => raise TypeError
  | Some l =>
      let* h := get_heap in
      match h !! l with
      | Some d => put_heap (<[l := dict_set k v d]> h)
      | None => raise DanglingReference
      end
  end.

Definition _query (inputs : json) (parameters options : option loc)
    (model task : option string) : M json :=
  let* self := get_self in
  let* target :=
    match model with
    | Some m => ret m
    | None =>
        match task ≫= (fun t => TASK_MODEL_MAP (config self) !! t) with
        | Some m => ret m
        | None => raise KeyError
        end
    end in
  let api_url := BASE_URL (config self) +:+ "/" +:+ target in
  let headers := [("Authorization", "Bearer " +:+ api_token self)] in
  let data := [("inputs", Val inputs)] in
  let data :=
    match parameters with
    | Some p => dict_set "parameters" (Ref p) data
    | None => data
    end in
  let data :=
    match options with
    | Some o => dict_set "options" (Ref o) data
    | None => data
    end in
  let* body := dumps data in
  let* response := http (mkRequest "POST" api_url headers body) in
  let* text := lift (decode_utf8 (content response)) in
  lift (json_loads text).

Definition _query_in_df (df : DataFrame) (column : string)
    (parameters options : option loc) (model task : option string)
  : M json :=
  let* inputs := lift (df_getitem column df) in
  _query (JList inputs) parameters options model task.

Definition fill_mask (text : json) (options : option loc)
    (model : option string) : M json :=
  _query text None options model (Some "fill-mask").

Definition fill_mask_in_df (df : DataFrame) (column : string)
    (options : option loc) (model : option string) : M DataFrame :=
  let* predictions :=
    _query_in_df df column None options model (Some "fill-mask") in
  let* items := lift (py_iter predictions) in
  if existsb is_list items then
    let* value :=
      lift (comprehension
              (fun prediction =>
                 result_bind (getitem0 prediction) (getitem "sequence"))
              items) in
    lift (df_setitem "predictions" value df)
  else
    let* first := lift (getitem0 predictions) in
    let* sequence := lift (getitem "sequence" first) in
    lift (df_setitem "predictions" [sequence] df).

Definition summarization (text : json) (parameters options : option loc)
    (model : option string) : M json :=
  _query text parameters options model (Some "summarization").

(** [parameters] is accepted and not passed on: line 92 calls
    [_query_in_df] without it. *)
Definition summarization_in_df (df : DataFrame) (column : string)
    (parameters options : option loc) (model : option string)
  : M DataFrame :=
  let* predictions :=
    _query_in_df df column None options model (Some "summarization") in
  let* items := lift (py_iter predictions) in
  let* value := lift (comprehension (getitem "summary_text") items) in
  lift (df_setitem "predictions" value df).

Definition question_answering (question context : json)
    (model : option string) : M json :=
  _query (JDict [("question", question); ("context", context)])
    None None model (Some "question-answering").

Definition sentence_similarity (source_sentence sentences : json)
    (options : option loc) (model : option string) : M json :=
  _query
    (JDict [("source_sentence", source_sentence); ("sentences", sentences)])
    None options model (Some "sentence-similarity").

Definition text_classification (text : json) (options : option loc)
    (model : option string) : M json :=
  _query text None options model (Some "text-classification").

Definition text_classification_in_df (df : DataFrame) (column : string)
    (options : option loc) (model : option string) : M DataFrame :=
  let* predictions :=
    _query_in_df df column None options model (Some "text-classification") in
  let* items := lift (py_iter predictions) in
  let* value :=
    lift (comprehension
            (fun prediction =>
               result_bind (getitem0 prediction) (getitem "label"))
            items) in
  lift (df_setitem "predictions" value df).

Definition text_generation (text : json) (parameters options : option loc)
    (model : option string) : M json :=
  _query text parameters options model (Some "text-generation").

Definition zero_shot_classification (text candidate_labels : json)
    (parameters : kwarg (option loc)) (options : option loc)
    (model : option string) : M json :=
  let parameters :=
    match parameters with
    | Omitted => Some zsc_default
    | Passed p => p
    end in
  let* _ := setitem parameters "candidate_labels" candidate_labels in
  _query text parameters options model (Some "zero-shot-classification").

Definition conversational (text : json)
    (past_user_inputs generated_responses : option json)
    (parameters options : option loc) (model : option string) : M json :=
  let inputs := [("text", text)] in
  let inputs :=
    match past_user_inputs with
    | Some p => dict_set "past_user_inputs" p inputs
    | None => inputs
    end in
  let inputs :=
    match generated_responses with
    | Some g => dict_set "generated_responses" g inputs
    | None => inputs
    end in
  _query (JDict inputs) parameters options model (Some "conversational").

Definition feature_extraction (text : json) (options : option loc)
    (model : option string) : M json :=
  _query text None options model (Some "feature-extraction").
End Client.

(** ** Calls *)

(** A call of a public method of the client, with its arguments. *)
Inductive call : Type :=
| Call_fill_mask (text : json) (options : option loc) (model : option string)
| Call_fill_mask_in_df (df : DataFrame) (column : string)
    (options : option loc) (model : option string)
| Call_summarization (text : json) (parameters options : option loc)
    (model : option string)
| Call_summarization_in_df (df : DataFrame) (column : string)
    (parameters options : option loc) (model : option string)
| Call_question_answering (question context : json) (model : option string)
| Call_sentence_similarity (source_sentence sentences : json)
    (options : option loc) (model : option string)
| Call_text_classification (text : json) (options : option loc)
    (model : option string)
| Call_text_classification_in_df (df : DataFrame) (column : string)
    (options : option loc) (model : option string)
| Call_text_generation (text : json) (parameters options : option loc)
    (model : option string)
| Call_zero_shot_classification (text candidate_labels : json)
    (parameters : kwarg (option loc)) (options : option loc)
    (model : option string)
| Call_conversational (text : json)
    (past_user_inputs generated_responses : option json)
    (parameters options : option loc) (model : option string)
| Call_feature_extraction (text : json) (options : option loc)
    (model : option string).

(** What a call returns: parsed JSON, or the table. *)
Inductive retval : Type :=
| RJson (j : json)
| RFrame (df : DataFrame).

Section Calls.
Context `{RT : Runtime}.

Definition fmap_M {A B : Type} (f : A -> B) (m : M A) : M B :=
  let* a := m in ret (f a).

Definition exec (c : call) : M retval :=
  match c with
  | Call_fill_mask text options model =>
      fmap_M RJson (fill_mask text options model)
  | Call_fill_mask_in_df df column options model =>
      fmap_M RFrame (fill_mask_in_df df column options model)
  | Call_summarization text parameters options model =>
      fmap_M RJson (summarization text parameters options model)
  | Call_summarization_in_df df column parameters options model =>
      fmap_M RFrame (summarization_in_df df column parameters options model)
  | Call_question_answering question context model =>
      fmap_M RJson (question_answering question context model)
  | Call_sentence_similarity source_sentence sentences options model =>
      fmap_M RJson (sentence_similarity source_sentence sentences options model)
  | Call_text_classification text options model =>
      fmap_M RJson (text_classification text options model)
  | Call_text_classification_in_df df column options model =>
      fmap_M RFrame (text_classification_in_df df column options model)
  | Call_text_generation text parameters options model =>
      fmap_M RJson (text_generation text parameters options model)
  | Call_zero_shot_classification text candidate_labels parameters options model =>
      fmap_M RJson
        (zero_shot_classification text candidate_labels parameters options model)
  | Call_conversational text past_user_inputs generated_responses parameters
      options model =>
      fmap_M RJson
        (conversational text past_user_inputs generated_responses parameters
           options model)
  | Call_feature_extraction text options model =>
      fmap_M RJson (feature_extraction text options model)
  end.

Definition set_heap (h : gmap loc dict) (st : state) : state :=
  mkState h (client st) (sent st) (world st).

(** What can happen between two calls: the program calls a method, makes
    a dictionary of its own, or writes into one it holds.  It holds no
    reference to the default dictionary of [zero_shot_classification]. *)
Inductive caller_step : state -> state -> Prop :=
| step_call (c : call) (st : state) :
    caller_step st (snd (exec c st))
| step_new (l : loc) (d : dict) (st : state) :
    heap st !! l = None ->
    caller_step st (set_heap (<[l := d]> (heap st)) st)
| step_write (l : loc) (d : dict) (st : state) :
    l <> zsc_default ->
    is_Some (heap st !! l) ->
    caller_step st (set_heap (<[l := d]> (heap st)) st).

(** The states a program can be in after constructing the client. *)
Definition reachable (st : state) : Prop :=
  exists api_token get_config_dict w,
    rtc caller_step (boot api_token get_config_dict w) st.
End Calls.

(** ** What the specification says of a request *)

(** The model a call resolves to: the explicit one when it is not [None],
    else the task's entry of the map. *)
Definition target_of (self : NLP) (model task : option string) : option string :=
  match model with
  | Some m => Some m
  | None => task ≫= (fun t => TASK_MODEL_MAP (config self) !! t)
  end.

(** An [Optional[Dict]] argument as the JSON value it stands for. *)
Definition arg_value (h : gmap loc dict) (a : option loc) : option json :=
  a ≫= (fun l => JDict <$> h !! l).

(** A dictionary argument refers to an object of the store. *)
Definition live (h : gmap loc dict) (a : option loc) : Prop :=
  match a with
  | Some l => is_Some (h !! l)
  | None => True
  end.

(** The request envelope of the specification: [inputs], then
    [parameters] and [options] when there are any. *)
Definition envelope (inputs : json) (parameters options : option json) : dict :=
  [("inputs", inputs)]
  ++ match parameters with
     | Some p => [("parameters", p)]
     | None => []
     end
  ++ match options with
     | Some o => [("options", o)]
     | None => []
     end.

(** The request of a call that resolves to [target] and carries [body]. *)
Definition request_of `{Runtime} (self : NLP) (target : string) (body : dict)
  : Request :=
  mkRequest "POST" (BASE_URL (config self) +:+ "/" +:+ target)
    [("Authorization", "Bearer " +:+ api_token self)]
    (json_dumps (JDict body)).

(** What the caller gets for an answer of the library: the body decoded
    and parsed, whatever the status code. *)
Definition answer_of `{Runtime} (ans : result Response) : result json :=
  result_bind ans (fun response =>
  result_bind (decode_utf8 (content response)) json_loads).

(** The requests a computation sends when run from [st], in order. *)
Definition sent_by `{Runtime} {A : Type} (m : M A) (st : state) : list Request :=
  drop (length (sent st)) (sent (snd (m st))).

(** The default dictionary of [zero_shot_classification] is there and
    holds nothing but, possibly, the labels of an earlier call. *)
Definition default_ok `{Runtime} (st : state) : Prop :=
  heap st !! zsc_default = Some []
  \/ exists labels, heap st !! zsc_default = Some [("candidate_labels", labels)].

(** [m] relates every state to the state it leaves by [R]. *)
Definition preserves `{Runtime} {A : Type} (R : relation state) (m : M A)
  : Prop :=
  forall st, R st (snd (m st)).

Definition same_client `{Runtime} : relation state :=
  fun st st' => client st' = client st.

Definition same_heap `{Runtime} : relation state :=
  fun st st' => heap st' = heap st.

(** A step from [st] to [st'] keeps [default_ok]. *)
Definition keeps_default `{Runtime} : relation state :=
  fun st st' => default_ok st -> default_ok st'.

Definition lower_ascii (c : ascii) : ascii :=
  let n := N_of_ascii c in
  if (65 <=? n)%N && (n <=? 90)%N then ascii_of_N (n + 32) else c.

Fixpoint lower (s : string) : string :=
  match s with
  | String c s' => String (lower_ascii c) (lower s')
  | EmptyString => EmptyString
  end.

Fixpoint contains (sub s : string) : bool :=
  Stdlib.Strings.String.prefix sub s
  || match s with
     | String _ s' => contains sub s'
     | EmptyString => false
     end.

(** A header that says the body is JSON: a content type, in any case of
    letters, that mentions json. *)
Definition json_content_header (h : string * string) : bool :=
  String.eqb (lower (fst h)) "content-type" && contains "json" (lower (snd h)).

(** ** What each method hands to the dispatcher *)

(** The task identifier a method passes. *)
Definition task_of (c : call) : string :=
  match c with
  | Call_fill_mask _ _ _ | Call_fill_mask_in_df _ _ _ _ => "fill-mask"
  | Call_summarization _ _ _ _ | Call_summarization_in_df _ _ _ _ _ =>
      "summarization"
  | Call_question_answering _ _ _ => "question-answering"
  | Call_sentence_similarity _ _ _ _ => "sentence-similarity"
  | Call_text_classification _ _ _ | Call_text_classification_in_df _ _ _ _ =>
      "text-classification"
  | Call_text_generation _ _ _ _ => "text-generation"
  | Call_zero_shot_classification _ _ _ _ _ => "zero-shot-classification"
  | Call_conversational _ _ _ _ _ _ => "conversational"
  | Call_feature_extraction _ _ _ => "feature-extraction"
  end.

(** The [model] argument of a call. *)
Definition model_of (c : call) : option string :=
  match c with
  | Call_fill_mask _ _ model
  | Call_fill_mask_in_df _ _ _ model
  | Call_summarization _ _ _ model
  | Call_summarization_in_df _ _ _ _ model
  | Call_question_answering _ _ model
  | Call_sentence_similarity _ _ _ model
  | Call_text_classification _ _ model
  | Call_text_classification_in_df _ _ _ model
  | Call_text_generation _ _ _ model
  | Call_zero_shot_classification _ _ _ _ model
  | Call_conversational _ _ _ _ _ model
  | Call_feature_extraction _ _ model => model
  end.

(** The methods that pass a [parameters] argument on to the dispatcher. *)
Definition carries_parameters (c : call) : bool :=
  match c with
  | Call_summarization _ _ _ _
  | Call_text_generation _ _ _ _
  | Call_zero_shot_classification _ _ _ _ _
  | Call_conversational _ _ _ _ _ _ => true
  | _ => false
  end.

(** The one method that writes into a dictionary of the store. *)
Definition is_zero_shot (c : call) : bool :=
  match c with
  | Call_zero_shot_classification _ _ _ _ _ => true
  | _ => false
  end.

(** The table and the column of a call of a tabular adapter. *)
Definition table_of (c : call) : option (DataFrame * string) :=
  match c with
  | Call_fill_mask_in_df df column _ _
  | Call_summarization_in_df df column _ _ _
  | Call_text_classification_in_df df column _ _ => Some (df, column)
  | _ => None
  end.

(** The [inputs] object of [conversational]: the text, then the earlier
    inputs and responses when there are any. *)
Definition conversation (text : json)
    (past_user_inputs generated_responses : option json) : dict :=
  [("text", text)]
  ++ match past_user_inputs with
     | Some p => [("past_user_inputs", p)]
     | None => []
     end
  ++ match generated_responses with
     | Some g => [("generated_responses", g)]
     | None => []
     end.

(** A step leaves the client and the log of requests as they were. *)
Definition same_wire `{Runtime} : relation state :=
  fun st st' => client st' = client st /\ sent st' = sent st.

(** [r] is a request of the dispatcher for [model] and [task], by the
    client [self]; its body has no [parameters] when none were passed. *)
Definition dispatched `{Runtime} (model task : option string)
    (parameters : option loc) (self : NLP) (r : Request) : Prop :=
  exists target inputs pv ov,
    target_of self model task = Some target
    /\ r = request_of self target (envelope inputs pv ov)
    /\ (parameters = None -> pv = None).

(** [m] keeps the client and sends nothing, or one request that [P]
    holds of. *)
Definition posts `{Runtime} {A : Type} (P : NLP -> Request -> Prop) (m : M A)
  : Prop :=
  forall st,
    client (snd (m st)) = client st
    /\ (sent (snd (m st)) = sent st
        \/ exists r, sent (snd (m st)) = sent st ++ [r] /\ P (client st) r).

(** ** A runtime to run the client on

    The theorems below hold for every [Runtime].  To run the client on
    concrete calls there is one here: a service that answers from a
    script, and a JSON printer, a JSON reader and a UTF-8 decoder written
    after the Python ones ([json.dumps] and [json.loads] with their default
    arguments).  One difference is known: a finite float is printed with
    all the digits of its exact value, where Python prints the shortest
    digits that read back. *)
Module Fixture.

Definition in_range (lo hi b : N) : bool := (lo <=? b)%N && (b <=? hi)%N.

Definition codes (s : string) : list N :=
  map N_of_ascii (String.list_ascii_of_string s).

Definition of_codes (l : list N) : string :=
  String.string_of_list_ascii (map ascii_of_N l).

(** *** UTF-8 *)

(** The code points of a byte sequence, when it is well-formed UTF-8
    (no overlong form, no surrogate, nothing above U+10FFFF). *)
Fixpoint utf8_points (bs : list N) : option (list N) :=
  match bs with
  | [] => Some []
  | b0 :: t0 =>
      if (b0 <? 0x80)%N then cons b0 <$> utf8_points t0
      else
        match t0 with
        | [] => None
        | b1 :: t1 =>
            if in_range 0xC2 0xDF b0 then
              if in_range 0x80 0xBF b1
              then cons ((b0 - 0xC0) * 64 + (b1 - 0x80))%N <$> utf8_points t1
              else None
            else
              match t1 with
              | [] => None
              | b2 :: t2 =>
                  if in_range 0xE0 0xEF b0 then
                    if in_range (if (b0 =? 0xE0)%N then 0xA0 else 0x80)
                         (if (b0 =? 0xED)%N then 0x9F else 0xBF) b1
                       && in_range 0x80 0xBF b2
                    then cons ((b0 - 0xE0) * 4096 + (b1 - 0x80) * 64
                               + (b2 - 0x80))%N <$> utf8_points t2
                    else None
                  else
                    match t2 with
                    | [] => None
                    | b3 :: t3 =>
                        if in_range 0xF0 0xF4 b0
                           && in_range (if (b0 =? 0xF0)%N then 0x90 else 0x80)
                                (if (b0 =? 0xF4)%N then 0x8F else 0xBF) b1
                           && in_range 0x80 0xBF b2 && in_range 0x80 0xBF b3
                        then cons ((b0 - 0xF0) * 262144 + (b1 - 0x80) * 4096
                                   + (b2 - 0x80) * 64 + (b3 - 0x80))%N
                               <$> utf8_points t3
                        else None
                    end
              end
        end
  end.

Definition utf8_encode (c : N) : list N :=
  if (c <? 0x80)%N then [c]
  else if (c <? 0x800)%N then [0xC0 + c / 64; 0x80 + c mod 64]%N
  else if (c <? 0x10000)%N then
    [0xE0 + c / 4096; 0x80 + (c / 64) mod 64; 0x80 + c mod 64]%N
  else
    [0xF0 + c / 262144; 0x80 + (c / 4096) mod 64; 0x80 + (c / 64) mod 64;
     0x80 + c mod 64]%N.

(** [bytes.decode("utf-8")], strict. *)
Definition decode (bs : list byte) : result string :=
  match utf8_points (map Byte.to_N bs) with
  | Some _ => Ok (String.string_of_list_byte bs)
  | None => Raise UnicodeDecodeError
  end.

(** [str.encode("utf-8")], to write the script of a service. *)
Definition encode (s : string) : list byte := String.list_byte_of_string s.

(** *** Printing *)

Definition hex_digit (n : N) : N :=
  if (n <? 10)%N then (48 + n)%N else (87 + n)%N.

Definition u_escape (c : N) : list N :=
  [92; 117; hex_digit (c / 4096); hex_digit ((c / 256) mod 16);
   hex_digit ((c / 16) mod 16); hex_digit (c mod 16)]%N.

(** One character of a string, as [ensure_ascii=True] prints it. *)
Definition escape_point (c : N) : list N :=
  if (c =? 34)%N then [92; 34]%N
  else if (c =? 92)%N then [92; 92]%N
  else if (c =? 10)%N then [92; 110]%N
  else if (c =? 13)%N then [92; 114]%N
  else if (c =? 9)%N then [92; 116]%N
  else if (c =? 8)%N then [92; 98]%N
  else if (c =? 12)%N then [92; 102]%N
  else if in_range 32 126 c then [c]
  else if (c <? 0x10000)%N then u_escape c
  else
    u_escape (0xD800 + (c - 0x10000) / 1024)
    ++ u_escape (0xDC00 + (c - 0x10000) mod 1024).

Definition print_string (s : string) : string :=
  let points := default (codes s) (utf8_points (codes s)) in
  of_codes ([34%N] ++ concat (map escape_point points) ++ [34%N]).

Fixpoint strip_zeros (rev_digits : list ascii) : list ascii :=
  match rev_digits with
  | c :: r => if Ascii.eqb c "0" then strip_zeros r else rev_digits
  | [] => []
  end.

(** The digits after the point of [fp / 10^k]. *)
Definition fraction_digits (k : nat) (fp : Z) : string :=
  let digits := String.list_ascii_of_string (pretty fp) in
  let padded := replicate (k - length digits) "0"%char ++ digits in
  match rev (strip_zeros (rev padded)) with
  | [] => "0"
  | ds => String.string_of_list_ascii ds
  end.

Definition print_float (f : float) : string :=
  match Prim2SF f with
  | S754_nan => "NaN"
  | S754_infinity s => if s then "-Infinity" else "Infinity"
  | S754_zero s => if s then "-0.0" else "0.0"
  | S754_finite s m e =>
      (if s then "-" else EmptyString)
      +:+ (if (0 <=? e)%Z then pretty (Z.pos m * 2 ^ e)%Z +:+ ".0"
           else
             let k := (- e)%Z in
             let scaled := (Z.pos m * 5 ^ k)%Z in
             pretty (scaled / 10 ^ k)%Z +:+ "."
             +:+ fraction_digits (Z.to_nat k) (scaled mod 10 ^ k)%Z)
  end.

Fixpoint dumps (v : json) : string :=
  match v with
  | JNull => "null"
  | JBool b => if b then "true" else "false"
  | JInt z => pretty z
  | JFloat f => print_float f
  | JStr s => print_string s
  | JList l => "[" +:+ String.concat ", " (map dumps l) +:+ "]"
  | JDict d =>
      "{"
      +:+ String.concat ", "
            (map (fun kv => print_string (fst kv) +:+ ": " +:+ dumps (snd kv))
                 d)
      +:+ "}"
  end.

(** *** Reading *)

Definition is_ws (c : ascii) : bool :=
  let n := N_of_ascii c in
  (n =? 32)%N || (n =? 9)%N || (n =? 10)%N || (n =? 13)%N.

Fixpoint skip_ws (s : list ascii) : list ascii :=
  match s with
  | c :: r => if is_ws c then skip_ws r else s
  | [] => []
  end.

Definition digit_of (c : ascii) : option N :=
  let n := N_of_ascii c in
  if in_range 48 57 n then Some (n - 48)%N else None.

Definition hex_of (c : ascii) : option N :=
  let n := N_of_ascii c in
  if in_range 48 57 n then Some (n - 48)%N
  else if in_range 97 102 n then Some (n - 87)%N
  else if in_range 65 70 n then Some (n - 55)%N
  else None.

(** A run of digits: its value continuing [acc], how many, the rest. *)
Fixpoint read_digits (acc : N) (n : nat) (s : list ascii)
  : N * nat * list ascii :=
  match s with
  | c :: r =>
      match digit_of c with
      | Some d => read_digits (acc * 10 + d)%N (S n) r
      | None => (acc, n, s)
      end
  | [] => (acc, n, [])
  end.

(** The double nearest to [± m × 10^e10]. *)
Definition decimal_to_float (neg : bool) (m : N) (e10 : Z) : float :=
  match m with
  | N0 => if neg then (-0)%float else 0%float
  | Npos p =>
      if (0 <=? e10)%Z then
        SF2Prim (binary_normalize prec emax
                   ((if neg then Z.neg p else Z.pos p) * 10 ^ e10)%Z 0 false)
      else
        SF2Prim (SFdiv prec emax (S754_finite neg p 0)
                   (S754_finite false (Z.to_pos (10 ^ (- e10))) 0))
  end.

(** A number: an integer without fraction and exponent, else a float. *)
Definition parse_number (s : list ascii) : option (json * list ascii) :=
  let '(neg, s1) :=
    match s with
    | "-"%char :: r => (true, r)
    | _ => (false, s)
    end in
  match s1 with
  | c :: r1 =>
      match digit_of c with
      | Some d =>
          let '(ip, _, s2) :=
            if (d =? 0)%N then (0%N, 1, r1) else read_digits 0 0 s1 in
          let '(m, fd, s3) :=
            match s2 with
            | "."%char :: r2 =>
                let '(m', k, r3) := read_digits ip 0 r2 in
                if Nat.eqb k 0 then (ip, 0, s2) else (m', k, r3)
            | _ => (ip, 0, s2)
            end in
          let after_e (r : list ascii) :=
            let '(eneg, r') :=
              match r with
              | "-"%char :: r' => (true, r')
              | "+"%char :: r' => (false, r')
              | _ => (false, r)
              end in
            let '(ex, k, r'') := read_digits 0 0 r' in
            if Nat.eqb k 0 then None
            else Some ((if eneg then - Z.of_N ex else Z.of_N ex)%Z, r'') in
          let exponent :=
            match s3 with
            | "e"%char :: r => after_e r
            | "E"%char :: r => after_e r
            | _ => None
            end in
          match exponent with
          | Some (ex, s4) =>
              Some (JFloat (decimal_to_float neg m (ex - Z.of_nat fd)), s4)
          | None =>
              if Nat.eqb fd 0
              then Some (JInt (if neg then - Z.of_N ip else Z.of_N ip), s3)
              else Some (JFloat (decimal_to_float neg m (- Z.of_nat fd)), s3)
          end
      | None => None
      end
  | [] => None
  end.

(** A piece of a string being read: a byte as it stands, or the code
    unit of a [\uXXXX] escape. *)
Inductive piece : Type :=
| Byte_ (b : N)
| Unit_ (u : N).

Definition simple_escape (c : ascii) : option N :=
  let n := N_of_ascii c in
  if (n =? 34)%N || (n =? 92)%N || (n =? 47)%N then Some n
  else if (n =? 98)%N then Some 8%N
  else if (n =? 102)%N then Some 12%N
  else if (n =? 110)%N then Some 10%N
  else if (n =? 114)%N then Some 13%N
  else if (n =? 116)%N then Some 9%N
  else None.

(** The pieces up to the closing quote; a control character ends the
    reading, as in strict mode. *)
Fixpoint parse_pieces (s : list ascii) : option (list piece * list ascii) :=
  match s with
  | [] => None
  | c :: r =>
      let n := N_of_ascii c in
      if (n =? 34)%N then Some ([], r)
      else if (n <? 32)%N then None
      else if (n =? 92)%N then
        match r with
        | e :: r1 =>
            match simple_escape e with
            | Some b =>
                match parse_pieces r1 with
                | Some (ps, rest) => Some (Byte_ b :: ps, rest)
                | None => None
                end
            | None =>
                match r1 with
                | h1 :: h2 :: h3 :: h4 :: r2 =>
                    match hex_of h1, hex_of h2, hex_of h3, hex_of h4 with
                    | Some a, Some b, Some c', Some d =>
                        if Ascii.eqb e "u" then
                          match parse_pieces r2 with
                          | Some (ps, rest) =>
                              Some (Unit_ (a * 4096 + b * 256 + c' * 16 + d)%N
                                      :: ps, rest)
                          | None => None
                          end
                        else None
                    | _, _, _, _ => None
                    end
                | _ => None
                end
            end
        | [] => None
        end
      else
        match parse_pieces r with
        | Some (ps, rest) => Some (Byte_ n :: ps, rest)
        | None => None
        end
  end.

(** The bytes of the pieces: a high surrogate followed by a low one is
    one character. *)
Fixpoint pieces_bytes (ps : list piece) : list N :=
  match ps with
  | [] => []
  | Byte_ b :: r => b :: pieces_bytes r
  | Unit_ u :: r =>
      match r with
      | Unit_ v :: r' =>
          if in_range 0xD800 0xDBFF u && in_range 0xDC00 0xDFFF v
          then utf8_encode (0x10000 + (u - 0xD800) * 1024 + (v - 0xDC00))%N
               ++ pieces_bytes r'
          else utf8_encode u ++ pieces_bytes r
      | _ => utf8_encode u ++ pieces_bytes r
      end
  end.

Definition parse_string (s : list ascii) : option (string * list ascii) :=
  match parse_pieces s with
  | Some (ps, rest) => Some (of_codes (pieces_bytes ps), rest)
  | None => None
  end.

Definition quote : ascii := ascii_of_N 34.

(** A value, the elements of an array after its bracket, the members of
    an object after its brace.  A repeated key keeps its place and takes
    the last value, as building a [dict] does. *)
Fixpoint parse_value (fuel : nat) (s : list ascii)
  : option (json * list ascii) :=
  match fuel with
  | 0 => None
  | S fuel' =>
      match skip_ws s with
      | "n"%char :: "u"%char :: "l"%char :: "l"%char :: r => Some (JNull, r)
      | "t"%char :: "r"%char :: "u"%char :: "e"%char :: r =>
          Some (JBool true, r)
      | "f"%char :: "a"%char :: "l"%char :: "s"%char :: "e"%char :: r =>
          Some (JBool false, r)
      | "N"%char :: "a"%char :: "N"%char :: r => Some (JFloat nan, r)
      | "I"%char :: "n"%char :: "f"%char :: "i"%char :: "n"%char :: "i"%char
        :: "t"%char :: "y"%char :: r => Some (JFloat infinity, r)
      | "-"%char :: "I"%char :: "n"%char :: "f"%char :: "i"%char :: "n"%char
        :: "i"%char :: "t"%char :: "y"%char :: r =>
          Some (JFloat neg_infinity, r)
      | "["%char :: r =>
          match skip_ws r with
          | "]"%char :: r' => Some (JList [], r')
          | _ =>
              match parse_elements fuel' r with
              | Some (l, r') => Some (JList l, r')
              | None => None
              end
          end
      | "{"%char :: r =>
          match skip_ws r with
          | "}"%char :: r' => Some (JDict [], r')
          | _ =>
              match parse_members fuel' [] r with
              | Some (d, r') => Some (JDict d, r')
              | None => None
              end
          end
      | c :: r =>
          if Ascii.eqb c quote then
            match parse_string r with
            | Some (str, r') => Some (JStr str, r')
            | None => None
            end
          else parse_number (c :: r)
      | [] => None
      end
  end
with parse_elements (fuel : nat) (s : list ascii)
  : option (list json * list ascii) :=
  match fuel with
  | 0 => None
  | S fuel' =>
      match parse_value fuel' s with
      | Some (v, r) =>
          match skip_ws r with
          | ","%char :: r' =>
              match parse_elements fuel' r' with
              | Some (l, r'') => Some (v :: l, r'')
              | None => None
              end
          | "]"%char :: r' => Some ([v], r')
          | _ => None
          end
      | None => None
      end
  end
with parse_members (fuel : nat) (acc : dict) (s : list ascii)
  : option (dict * list ascii) :=
  match fuel with
  | 0 => None
  | S fuel' =>
      match skip_ws s with
      | c :: r =>
          if Ascii.eqb c quote then
            match parse_string r with
            | Some (k, r1) =>
                match skip_ws r1 with
                | ":"%char :: r2 =>
                    match parse_value fuel' r2 with
                    | Some (v, r3) =>
                        match skip_ws r3 with
                        | ","%char :: r4 =>
                            parse_members fuel' (dict_set k v acc) r4
                        | "}"%char :: r4 => Some (dict_set k v acc, r4)
                        | _ => None
                        end
                    | None => None
                    end
                | _ => None
                end
            | None => None
            end
          else None
      | [] => None
      end
  end.

Definition loads (text : string) : result json :=
  let s := String.list_ascii_of_string text in
  match parse_value (2 * length s + 2) s with
  | Some (v, r) =>
      match skip_ws r with
      | [] => Ok v
      | _ => Raise JSONDecodeError
      end
  | None => Raise JSONDecodeError
  end.

(** *** The service *)

(** The answers the service will give, in order; past the script the
    connection fails. *)
Definition script : Type := list (result Response).

Definition request (r : Request) (w : script) : result Response * script :=
  match w with
  | a :: w' => (a, w')
  | [] => (Raise RequestException, [])
  end.

#[export] Instance runtime : Runtime := {
  World := script;
  requests_request := request;
  json_dumps := dumps;
  json_loads := loads;
  decode_utf8 := decode
}.
End Fixture.

(** ** Scenarios

    Concrete programs on the runtime above, to evaluate the client on. *)
Module Scenario.
Import Fixture.

Definition cfg : Config :=
  mkConfig "https://api-inference.huggingface.co/models"
    (list_to_map
       [("fill-mask", "bert-base-uncased");
        ("summarization", "facebook/bart-large-cnn");
        ("question-answering", "deepset/roberta-base-squad2");
        ("zero-shot-classification", "facebook/bart-large-mnli")]).

(** The service answers [v] with the status [code]. *)
Definition answer (code : Z) (v : json) : result Response :=
  Ok (mkResponse code (encode (dumps v))).

(** The client is constructed; the service will answer by the script. *)
Definition started (w : script) : state := boot "hf_token" cfg w.

(** A dictionary the program made, [{"max_length": 20}] in Python, at
    location 1. *)
Definition caller_dict : dict := [("max_length", JInt 20)].

Definition with_caller_dict (w : script) : state :=
  set_heap (<[1 := caller_dict]> (heap (started w))) (started w).

Definition summary : json := JList [JDict [("summary_text", JStr "A tower.")]].

Definition loading : json :=
  JDict [("error", JStr "Model facebook/bart-large-cnn is currently loading");
         ("estimated_time", JFloat 20.5)].

Definition candidate (sequence token_str : string) (token : Z) : json :=
  JDict [("sequence", JStr sequence); ("score", JFloat 0.125);
         ("token", JInt token); ("token_str", JStr token_str)].

Definition table3 : DataFrame :=
  mkDataFrame 3
    [("text", [JStr "Paris is the [MASK] of France.";
               JStr "The sky is [MASK].";
               JStr "I [MASK] you."])].

Definition table1 : DataFrame :=
  mkDataFrame 1 [("text", [JStr "The sky is [MASK]."])].

(** An answer for three rows: the candidates of each. *)
Definition batched3 : json :=
  JList
    [JList [candidate "paris is the capital of france." "capital" 3007;
            candidate "paris is the heart of france." "heart" 2540];
     JList [candidate "the sky is blue." "blue" 2630;
            candidate "the sky is clear." "clear" 3154];
     JList [candidate "i love you." "love" 2293;
            candidate "i miss you." "miss" 3335]].

(** An answer for one text: its candidates. *)
Definition flat : json :=
  JList [candidate "the sky is blue." "blue" 2630;
         candidate "the sky is clear." "clear" 3154].

Definition labels : json := JList [JStr "refund"; JStr "legal"; JStr "faq"].

Definition clara : json :=
  JDict [("score", JFloat 0.9375); ("start", JInt 11); ("end", JInt 16);
         ("answer", JStr "Clara")].

Definition complaint : json := JStr "I would like to get reimbursed!".

Definition verdict : json :=
  JDict [("sequence", complaint);
         ("labels", JList [JStr "refund"; JStr "faq"; JStr "legal"]);
         ("scores", JList [JFloat 0.875; JFloat 0.09375; JFloat 0.03125])].

(** The program has called [zero_shot_classification] once without
    [parameters], for other labels. *)
Definition after_one_call (w : script) : state :=
  snd (exec (Call_zero_shot_classification (JStr "Where is my parcel?")
               (JList [JStr "shipping"; JStr "billing"]) Omitted None None)
         (started w)).

(** A table of two rows with a column beside the text. *)
Definition table2 : DataFrame :=
  mkDataFrame 2
    [("id", [JInt 1; JInt 2]);
     ("text", [JStr "The tower is 324 metres tall.";
               JStr "I like you. I love you"])].

(** A table with its column and no row. *)
Definition table0 : DataFrame := mkDataFrame 0 [("text", [])].

Definition summaries2 : json :=
  JList [JDict [("summary_text", JStr "A tower.")];
         JDict [("summary_text", JStr "Affection.")]].

Definition sentiment (first second : string) : json :=
  JList [JDict [("label", JStr first); ("score", JFloat 0.75)];
         JDict [("label", JStr second); ("score", JFloat 0.25)]].

Definition sentiments2 : json :=
  JList [sentiment "NEGATIVE" "POSITIVE"; sentiment "POSITIVE" "NEGATIVE"].

(** An answer that is not JSON. *)
Definition bad_gateway : result Response :=
  Ok (mkResponse 502 (encode "<html>502 Bad Gateway</html>")).

(** A client whose map has no task, and the program's dictionary. *)
Definition bare (w : script) : state :=
  set_heap (<[1 := caller_dict]> {[ zsc_default := [] ]})
    (boot "hf_token"
       (mkConfig "https://api-inference.huggingface.co/models" ∅) w).
End Scenario.

(** * Properties *)

(** ** Dictionaries *)

Lemma dict_get_set_eq {A : Type} (k : string) (v : A) (d : list (string * A)) :
  dict_get k (dict_set k v d) = Some v.
Proof.
  induction d as [|[k' v'] d IH]; simpl.
  - by rewrite String.eqb_refl.
  - destruct (String.eqb k k') eqn:E; simpl; rewrite ?String.eqb_refl, ?E; done.
Qed.

Lemma dict_get_set_ne {A : Type} (k k' : string) (v : A) (d : list (string * A)) :
  k <> k' -> dict_get k' (dict_set k v d) = dict_get k' d.
Proof.
  intros Hne. induction d as [|[k0 v0] d IH]; simpl.
  - destruct (String.eqb_spec k' k); congruence.
  - destruct (String.eqb_spec k k0) as [->|]; simpl.
    + destruct (String.eqb_spec k' k0); congruence.
    + by rewrite IH.
Qed.

(** ** Frames: what a computation leaves as it was *)

Section Frames.
Context `{RT : Runtime}.

#[local] Instance same_client_po : PreOrder same_client.
Proof. split; unfold same_client; [done|]. intros x y z ??. congruence. Qed.

#[local] Instance same_heap_po : PreOrder same_heap.
Proof. split; unfold same_heap; [done|]. intros x y z ??. congruence. Qed.

Section Generic.
Context (R : relation state) `{!PreOrder R}.

Lemma preserves_ret {A : Type} (a : A) : preserves R (ret a).
Proof. intros st. simpl. reflexivity. Qed.

Lemma preserves_raise {A : Type} (e : exn) : preserves R (raise (A:=A) e).
Proof. intros st. simpl. reflexivity. Qed.

Lemma preserves_lift {A : Type} (r : result A) : preserves R (lift r).
Proof. intros st. simpl. reflexivity. Qed.

Lemma preserves_get_self : preserves R get_self.
Proof. intros st. simpl. reflexivity. Qed.

Lemma preserves_get_heap : preserves R get_heap.
Proof. intros st. simpl. reflexivity. Qed.

Lemma preserves_dumps data : preserves R (dumps data).
Proof. intros st. unfold dumps. destruct deref_items; simpl; reflexivity. Qed.

Lemma preserves_bind {A B : Type} (m : M A) (k : A -> M B) :
  preserves R m -> (forall a, preserves R (k a)) -> preserves R (bind m k).
Proof.
  intros Hm Hk st. unfold bind. specialize (Hm st).
  destruct (m st) as [[a|e] st']; simpl in *; [|done].
  etrans; [exact Hm|apply Hk].
Qed.
End Generic.

(** *** The primitives *)

Lemma http_same_client r : preserves same_client (http r).
Proof. intros st. unfold http. by destruct requests_request. Qed.

Lemma http_same_heap r : preserves same_heap (http r).
Proof. intros st. unfold http. by destruct requests_request. Qed.

Lemma put_heap_same_client h : preserves same_client (put_heap h).
Proof. by intros st. Qed.

Create HintDb frame.

#[local] Hint Resolve preserves_ret preserves_raise preserves_lift
  preserves_get_self preserves_get_heap preserves_dumps
  http_same_client http_same_heap put_heap_same_client : frame.

(** Walks a computation down its binds and case distinctions. *)
Ltac frame :=
  repeat first
    [ solve [eauto with frame typeclass_instances]
    | apply preserves_bind; [typeclasses eauto| |intros ?]
    | match goal with
      | |- preserves _ (match ?x with _ => _ end) => destruct x
      | |- preserves _ (fmap_M _ _) => unfold fmap_M
      end
    | progress cbv beta zeta ].

Lemma setitem_same_client target k v : preserves same_client (setitem target k v).
Proof. unfold setitem. frame. Qed.

Lemma _query_same_client inputs parameters options model task :
  preserves same_client (_query inputs parameters options model task).
Proof. unfold _query. frame. Qed.

Lemma _query_same_heap inputs parameters options model task :
  preserves same_heap (_query inputs parameters options model task).
Proof. unfold _query. frame. Qed.

#[local] Hint Resolve setitem_same_client _query_same_client _query_same_heap
  : frame.

Lemma _query_in_df_same_client df column parameters options model task :
  preserves same_client (_query_in_df df column parameters options model task).
Proof. unfold _query_in_df. frame. Qed.

Lemma _query_in_df_same_heap df column parameters options model task :
  preserves same_heap (_query_in_df df column parameters options model task).
Proof. unfold _query_in_df. frame. Qed.

#[local] Hint Resolve _query_in_df_same_client _query_in_df_same_heap : frame.

#[local] Instance keeps_default_po : PreOrder keeps_default.
Proof.
  split; [intros x Hx; exact Hx|].
  intros x y z Hxy Hyz Hx. exact (Hyz (Hxy Hx)).
Qed.

#[local] Instance eq_state_po : PreOrder (@eq state).
Proof. split; [done|]. intros x y z ??. congruence. Qed.

Lemma same_heap_keeps_default {A : Type} (m : M A) :
  preserves same_heap m -> preserves keeps_default m.
Proof.
  intros Hm st. specialize (Hm st). unfold same_heap in Hm.
  unfold keeps_default, default_ok. by rewrite Hm.
Qed.

(** Writing into an object of the store. *)
Lemma setitem_run st l d k v :
  heap st !! l = Some d ->
  setitem (Some l) k v st = (Ok tt, set_heap (<[l := dict_set k v d]> (heap st)) st).
Proof. intros H. unfold setitem, bind, get_heap. by rewrite H. Qed.

Lemma setitem_dangling st l k v :
  heap st !! l = None -> setitem (Some l) k v st = (Raise DanglingReference, st).
Proof. intros H. unfold setitem, bind, get_heap. by rewrite H. Qed.

(** Inserting the labels keeps the default dictionary as [default_ok]
    wants it, whichever object is written. *)
Lemma setitem_keeps_default target v :
  preserves keeps_default (setitem target "candidate_labels" v).
Proof.
  intros st. destruct target as [l|]; [|done].
  destruct (heap st !! l) as [d|] eqn:Hl;
    [rewrite (setitem_run _ _ _ _ _ Hl)|by rewrite (setitem_dangling _ _ _ _ Hl)].
  unfold keeps_default, default_ok. simpl.
  destruct (decide (l = zsc_default)) as [->|Hne].
  - rewrite lookup_insert_eq. rewrite Hl.
    intros [[= ->]|[labels [= ->]]]; right; by eexists.
  - by rewrite lookup_insert_ne.
Qed.

#[local] Hint Resolve setitem_keeps_default : frame.
#[local] Hint Extern 2 (preserves keeps_default _) =>
  apply same_heap_keeps_default : frame.

Lemma exec_keeps_default c : preserves keeps_default (exec c).
Proof.
  destruct c; unfold exec, fill_mask, fill_mask_in_df, summarization,
    summarization_in_df, question_answering, sentence_similarity,
    text_classification, text_classification_in_df, text_generation,
    zero_shot_classification, conversational, feature_extraction; frame.
Qed.

Lemma boot_default_ok api_token get_config_dict w :
  default_ok (boot api_token get_config_dict w).
Proof. left. simpl. apply lookup_singleton_eq. Qed.

Lemma caller_step_default_ok st st' :
  caller_step st st' -> default_ok st -> default_ok st'.
Proof.
  destruct 1 as [c st|l d st Hl|l d st Hne Hl]; intros Hd.
  - by apply exec_keeps_default.
  - assert (l <> zsc_default).
    { intros ->. destruct Hd as [Hd|[? Hd]]; congruence. }
    unfold default_ok. simpl. by rewrite lookup_insert_ne.
  - unfold default_ok. simpl. by rewrite lookup_insert_ne.
Qed.

(** Wherever a program gets, the default dictionary holds at most the
    labels of an earlier call. *)
Lemma reachable_default_ok st : reachable st -> default_ok st.
Proof.
  intros (tok & cfg & w & Hsteps).
  revert st Hsteps. apply rtc_ind_r.
  - apply boot_default_ok.
  - intros st st' _ Hstep IH. by eapply caller_step_default_ok.
Qed.

(** What comes after the answer in an adapter sends nothing and writes
    nothing. *)
Lemma bind_silent {A B : Type} (m : M A) (k : A -> M B) st :
  (forall a, preserves eq (k a)) -> snd (bind m k st) = snd (m st).
Proof.
  intros Hk. unfold bind. destruct (m st) as [[a|e] st']; simpl; [|done].
  symmetry. apply Hk.
Qed.

Lemma fill_mask_in_df_state df column options model st :
  snd (fill_mask_in_df df column options model st)
  = snd (_query_in_df df column None options model (Some "fill-mask") st).
Proof. unfold fill_mask_in_df. apply bind_silent. intros a. frame. Qed.

Lemma summarization_in_df_state df column parameters options model st :
  snd (summarization_in_df df column parameters options model st)
  = snd (_query_in_df df column None options model (Some "summarization") st).
Proof. unfold summarization_in_df. apply bind_silent. intros a. frame. Qed.

(** No method writes an attribute of the client. *)
Lemma exec_same_client c : preserves same_client (exec c).
Proof.
  destruct c; unfold exec, fill_mask, fill_mask_in_df, summarization,
    summarization_in_df, question_answering, sentence_similarity,
    text_classification, text_classification_in_df, text_generation,
    zero_shot_classification, conversational, feature_extraction; frame.
Qed.
End Frames.

(** ** The dispatcher *)

Section Dispatch.
Context `{RT : Runtime}.

Lemma arg_value_live h a : live h a -> (arg_value h a = None <-> a = None).
Proof.
  destruct a as [l|]; simpl; [|done].
  intros [d ->]. simpl. split; discriminate.
Qed.

(** The dictionary [data] of [_query], entry by entry, is the envelope. *)
Lemma deref_items_data h inputs parameters options :
  live h parameters -> live h options ->
  deref_items h
    (let data := [("inputs", Val inputs)] in
     let data :=
       match parameters with
       | Some p => dict_set "parameters" (Ref p) data
       | None => data
       end in
     match options with
     | Some o => dict_set "options" (Ref o) data
     | None => data
     end)
  = Some (envelope inputs (arg_value h parameters) (arg_value h options)).
Proof.
  unfold deref_items, envelope.
  destruct parameters as [p|], options as [o|]; simpl;
    intros Hp Ho;
    repeat match goal with
           | H : is_Some _ |- _ => destruct H as [? ->]
           end; done.
Qed.

Lemma envelope_inputs inputs parameters options :
  dict_get "inputs" (envelope inputs parameters options) = Some inputs.
Proof. done. Qed.

Lemma envelope_parameters inputs parameters options :
  dict_get "parameters" (envelope inputs parameters options) = parameters.
Proof. by destruct parameters, options. Qed.

Lemma envelope_options inputs parameters options :
  dict_get "options" (envelope inputs parameters options) = options.
Proof. by destruct parameters, options. Qed.

(** A call whose model resolves sends one request and returns what the
    answer parses to. *)
Lemma _query_run st inputs parameters options model task target :
  target_of (client st) model task = Some target ->
  live (heap st) parameters -> live (heap st) options ->
  let r := request_of (client st) target
             (envelope inputs (arg_value (heap st) parameters)
                (arg_value (heap st) options)) in
  _query inputs parameters options model task st
  = (answer_of (fst (requests_request r (world st))),
     mkState (heap st) (client st) (sent st ++ [r])
       (snd (requests_request r (world st)))).
Proof.
  intros Ht Hp Ho r.
  assert (Hd := deref_items_data (heap st) inputs parameters options Hp Ho).
  cbv zeta in Hd.
  unfold _query, bind, get_self at 1.
  assert ((match model with
           | Some m => ret m
           | None =>
               match task ≫= (fun t => TASK_MODEL_MAP (config (client st)) !! t) with
               | Some m => ret m
               | None => raise KeyError
               end
           end) st = (Ok target, st)) as ->.
  { unfold target_of in Ht. destruct model; simplify_eq; [done|].
    by rewrite Ht. }
  unfold dumps. cbv zeta. rewrite Hd.
  unfold http, lift, answer_of, result_bind. subst r. unfold request_of.
  destruct requests_request as [[resp|e] w]; simpl; [|done].
  by destruct (decode_utf8 (content resp)).
Qed.

(** A call whose model does not resolve raises [KeyError] and does
    nothing else. *)
Lemma _query_unresolved st inputs parameters options model task :
  target_of (client st) model task = None ->
  _query inputs parameters options model task st = (Raise KeyError, st).
Proof.
  intros Ht. unfold _query, bind, get_self at 1.
  unfold target_of in Ht. destruct model; [done|]. by rewrite Ht.
Qed.

Lemma run_fst {A : Type} (m : M A) st (r : result A) :
  fst (m st) = r -> m st = (r, snd (m st)).
Proof. intros <-. by destruct (m st). Qed.

Lemma sent_by_app {A : Type} (m : M A) st l :
  sent (snd (m st)) = sent st ++ l -> sent_by m st = l.
Proof. intros H. unfold sent_by. rewrite H. by rewrite drop_app_length. Qed.

Lemma _query_sent st inputs parameters options model task target :
  target_of (client st) model task = Some target ->
  live (heap st) parameters -> live (heap st) options ->
  sent_by (_query inputs parameters options model task) st
  = [request_of (client st) target
       (envelope inputs (arg_value (heap st) parameters)
          (arg_value (heap st) options))].
Proof.
  intros Ht Hp Ho. apply sent_by_app.
  by rewrite (_query_run _ _ _ _ _ _ _ Ht Hp Ho).
Qed.
End Dispatch.

Section Claims.
Context `{RT : Runtime}.

(** C1.  A call of the dispatcher whose model resolves sends one request,
    and its body is the serialization of exactly [{"inputs": inputs}]
    extended with the key [parameters] when, and only when, the argument
    is not [None], and likewise with [options]: the key of an absent
    argument is not in the body at all (looking it up finds nothing, not a
    null). *)
Theorem query_body_is_envelope st inputs parameters options model task target :
  target_of (client st) model task = Some target ->
  live (heap st) parameters ->
  live (heap st) options ->
  exists r body,
    sent_by (_query inputs parameters options model task) st = [r]
    /\ req_data r = json_dumps (JDict body)
    /\ body = envelope inputs (arg_value (heap st) parameters)
                (arg_value (heap st) options)
    /\ dict_get "inputs" body = Some inputs
    /\ dict_get "parameters" body = arg_value (heap st) parameters
    /\ dict_get "options" body = arg_value (heap st) options
    /\ (parameters = None <-> dict_get "parameters" body = None)
    /\ (options = None <-> dict_get "options" body = None).
Proof.
  intros Ht Hp Ho. eexists _, _. split; [by apply _query_sent|].
  split; [done|]. split; [done|].
  rewrite envelope_parameters, envelope_options.
  repeat split; try done; by apply arg_value_live.
Qed.

(** C2, as the code has it.  A model that is given (anything but [None],
    the empty string included) is the last segment of the URL as it
    stands, whatever the task; with no model the URL ends in the entry of
    the task in the map. *)
Theorem query_url st inputs parameters options model task target :
  target_of (client st) model task = Some target ->
  live (heap st) parameters ->
  live (heap st) options ->
  exists r,
    sent_by (_query inputs parameters options model task) st = [r]
    /\ req_url r = BASE_URL (config (client st)) +:+ "/" +:+ target
    /\ (forall m, model = Some m -> target = m)
    /\ (model = None ->
        exists t, task = Some t
                  /\ TASK_MODEL_MAP (config (client st)) !! t = Some target).
Proof.
  intros Ht Hp Ho. eexists. split; [by apply _query_sent|].
  split; [done|]. unfold target_of in Ht. split.
  - intros m ->. by simplify_eq.
  - intros ->. destruct task as [t|]; [|done]. by exists t.
Qed.

(** C3.  Whatever the status code of the response, when its body decodes
    and parses the dispatcher returns the parsed value itself. *)
Theorem query_returns_parsed_body st inputs parameters options model task
    target code body w' text v :
  target_of (client st) model task = Some target ->
  live (heap st) parameters ->
  live (heap st) options ->
  requests_request
    (request_of (client st) target
       (envelope inputs (arg_value (heap st) parameters)
          (arg_value (heap st) options)))
    (world st) = (Ok (mkResponse code body), w') ->
  decode_utf8 body = Ok text ->
  json_loads text = Ok v ->
  fst (_query inputs parameters options model task st) = Ok v.
Proof.
  intros Ht Hp Ho Hr Hd Hl.
  rewrite (_query_run _ _ _ _ _ _ _ Ht Hp Ho). cbv zeta. simpl.
  rewrite Hr. simpl. rewrite Hd. simpl. done.
Qed.

(** C4.  With no model and a task that the map does not have, the
    dispatcher raises [KeyError] and the state is as before: no request
    was sent. *)
Theorem query_unknown_task st inputs parameters options task :
  task ≫= (fun t => TASK_MODEL_MAP (config (client st)) !! t) = None ->
  _query inputs parameters options None task st = (Raise KeyError, st)
  /\ sent_by (_query inputs parameters options None task) st = [].
Proof.
  intros Ht.
  assert (_query inputs parameters options None task st = (Raise KeyError, st))
    as H by by apply _query_unresolved.
  split; [done|]. apply sent_by_app. rewrite H. simpl. by rewrite app_nil_r.
Qed.

(** C8, as the code has it.  A dispatch sends one request; it is a POST,
    its body is JSON-encoded, and its headers are the bearer token and
    nothing else: no header says that the content is JSON. *)
Theorem query_request_shape st inputs parameters options model task target :
  target_of (client st) model task = Some target ->
  live (heap st) parameters ->
  live (heap st) options ->
  exists r body,
    sent_by (_query inputs parameters options model task) st = [r]
    /\ req_method r = "POST"
    /\ req_headers r
       = [("Authorization", "Bearer " +:+ api_token (client st))]
    /\ req_data r = json_dumps (JDict body)
    /\ existsb json_content_header (req_headers r) = false.
Proof.
  intros Ht Hp Ho. eexists _, _. split; [by apply _query_sent|]. done.
Qed.
End Claims.

Section Methods.
Context `{RT : Runtime}.

Lemma live_insert (h : gmap loc dict) l d a :
  live h a -> live (<[l := d]> h) a.
Proof.
  destruct a as [l'|]; simpl; [|done].
  intros H. rewrite lookup_insert_is_Some.
  destruct (decide (l = l')); auto.
Qed.

(** The call with a dictionary object for [parameters]: the labels are
    written into the object, then the dispatcher runs on the store so
    changed. *)
Lemma zero_shot_classification_run st text labels l d options model :
  heap st !! l = Some d ->
  zero_shot_classification text labels (Passed (Some l)) options model st
  = _query text (Some l) options model (Some "zero-shot-classification")
      (set_heap (<[l := dict_set "candidate_labels" labels d]> (heap st)) st).
Proof.
  intros Hl. unfold zero_shot_classification, bind.
  by rewrite (setitem_run _ _ _ _ _ Hl).
Qed.

Lemma zero_shot_classification_effect st text labels l d options model target :
  heap st !! l = Some d ->
  live (heap st) options ->
  target_of (client st) model (Some "zero-shot-classification") = Some target ->
  let h' := <[l := dict_set "candidate_labels" labels d]> (heap st) in
  heap (snd (zero_shot_classification text labels (Passed (Some l)) options
               model st)) = h'
  /\ sent_by (zero_shot_classification text labels (Passed (Some l)) options
                model) st
     = [request_of (client st) target
          (envelope text
             (Some (JDict (dict_set "candidate_labels" labels d)))
             (arg_value h' options))].
Proof.
  intros Hl Ho Ht h'.
  assert (live h' (Some l)) as Hl'.
  { simpl. subst h'. rewrite lookup_insert_eq. by eexists. }
  assert (live h' options) as Ho' by by apply live_insert.
  pose proof (_query_run (set_heap h' st) text (Some l) options model
                (Some "zero-shot-classification") target Ht Hl' Ho') as Hrun.
  cbv zeta in Hrun. simpl in Hrun.
  unfold sent_by. rewrite (zero_shot_classification_run _ _ _ _ _ _ _ Hl).
  fold h'. rewrite Hrun. simpl. split; [done|].
  rewrite drop_app_length. subst h'. by rewrite lookup_insert_eq.
Qed.

(** C5, as the code has it.  [summarization_in_df] does not pass its
    [parameters] on: whatever the caller gives for it, the body of the
    request has the column as [inputs], [options] when given, and no
    [parameters] key. *)
Theorem summarization_in_df_drops_parameters st df column parameters options
    model target inputs :
  df_getitem column df = Ok inputs ->
  live (heap st) options ->
  target_of (client st) model (Some "summarization") = Some target ->
  exists r body,
    sent_by (summarization_in_df df column parameters options model) st = [r]
    /\ req_data r = json_dumps (JDict body)
    /\ body = envelope (JList inputs) None (arg_value (heap st) options)
    /\ dict_get "parameters" body = None.
Proof.
  intros Hc Ho Ht. eexists _, _. split.
  { unfold sent_by. rewrite summarization_in_df_state.
    unfold _query_in_df, bind, lift. rewrite Hc.
    rewrite (_query_run st (JList inputs) None options model _ target Ht I Ho).
    simpl. by rewrite drop_app_length. }
  split; [done|]. split; [done|]. by rewrite envelope_parameters.
Qed.

(** C6.  With a dictionary of the caller for [parameters], the call
    writes [candidate_labels] into that very object (the store after the
    call has it there, bound to the given list, its other keys and every
    other object as they were) and the body of the request carries the
    object so changed.  For the calls that leave the argument out an
    empty dictionary is made first, before any call; in every state a
    program can reach, the body of such a call carries a dictionary that
    holds the given [candidate_labels] and nothing else. *)
Theorem zero_shot_classification_inserts_labels :
  (forall api_token get_config_dict w,
      heap (boot api_token get_config_dict w) !! zsc_default = Some [])
  /\
  (forall st text labels l d options model target,
      heap st !! l = Some d ->
      live (heap st) options ->
      target_of (client st) model (Some "zero-shot-classification")
      = Some target ->
      let st' := snd (zero_shot_classification text labels (Passed (Some l))
                        options model st) in
      heap st' = <[l := dict_set "candidate_labels" labels d]> (heap st)
      /\ (exists d', heap st' !! l = Some d'
                     /\ dict_get "candidate_labels" d' = Some labels
                     /\ forall k, k <> "candidate_labels" ->
                                  dict_get k d' = dict_get k d)
      /\ exists r body,
          sent_by (zero_shot_classification text labels (Passed (Some l))
                     options model) st = [r]
          /\ req_data r = json_dumps (JDict body)
          /\ body = envelope text
                      (Some (JDict (dict_set "candidate_labels" labels d)))
                      (arg_value (heap st') options)
          /\ dict_get "parameters" body = JDict <$> heap st' !! l)
  /\ (forall st text labels options model target,
         reachable st ->
         live (heap st) options ->
         target_of (client st) model (Some "zero-shot-classification")
         = Some target ->
         let st' := snd (zero_shot_classification text labels Omitted options
                           model st) in
         exists r body,
           sent_by (zero_shot_classification text labels Omitted options model)
             st = [r]
           /\ req_data r = json_dumps (JDict body)
           /\ body = envelope text
                       (Some (JDict [("candidate_labels", labels)]))
                       (arg_value (heap st') options)).
Proof.
  split; [intros; apply lookup_singleton_eq|]. split.
  - intros st text labels l d options model target Hl Ho Ht st'.
    destruct (zero_shot_classification_effect st text labels l d options model
                target Hl Ho Ht) as [Hh Hs].
    cbv zeta in Hh, Hs. subst st'. rewrite Hh. split; [done|]. split.
    + eexists. rewrite lookup_insert_eq. split; [done|].
      split; [apply dict_get_set_eq|].
      intros k Hk. apply dict_get_set_ne. congruence.
    + eexists _, _. split; [exact Hs|]. split; [done|]. split; [done|].
      rewrite envelope_parameters. by rewrite lookup_insert_eq.
  - intros st text labels options model target Hr Ho Ht st'.
    assert (exists d, heap st !! zsc_default = Some d
                      /\ dict_set "candidate_labels" labels d
                         = [("candidate_labels", labels)]) as (d & Hd & Hset).
    { destruct (reachable_default_ok st Hr) as [H|[old H]];
        eexists; (split; [exact H|done]). }
    destruct (zero_shot_classification_effect st text labels zsc_default d
                options model target Hd Ho Ht) as [Hh Hs].
    cbv zeta in Hh, Hs.
    change (zero_shot_classification text labels Omitted options model)
      with (zero_shot_classification text labels (Passed (Some zsc_default))
              options model) in *.
    subst st'. rewrite Hh. eexists _, _. split; [exact Hs|].
    rewrite Hset. done.
Qed.

(** C9.  No call of a task method or of a tabular adapter changes the
    token or the configuration of the client. *)
Theorem client_unchanged c st :
  api_token (client (snd (exec c st))) = api_token (client st)
  /\ config (client (snd (exec c st))) = config (client st).
Proof.
  pose proof (exec_same_client c st) as H. unfold same_client in H.
  by rewrite H.
Qed.

(** The client of a program is the one its constructor made. *)
Lemma reachable_client api_token get_config_dict w st :
  rtc caller_step (boot api_token get_config_dict w) st ->
  client st = __init__ api_token get_config_dict.
Proof.
  revert st. apply rtc_ind_r; [done|].
  intros st st' _ Hstep IH. rewrite <- IH.
  destruct Hstep; [apply exec_same_client|done|done].
Qed.

(** C10.  [parameters=None] passed explicitly: the insertion raises
    [TypeError] and the state is as before, so no dictionary was made and
    nothing was sent.  [parameters] left out: the labels are written into
    the one default dictionary, which stays in the store for the next
    call; no dictionary is made either. *)
Theorem zero_shot_classification_none_and_default :
  (forall st text labels options model,
      zero_shot_classification text labels (Passed None) options model st
      = (Raise TypeError, st)
      /\ sent_by (zero_shot_classification text labels (Passed None) options
                    model) st = [])
  /\ (forall st text labels options model d,
         heap st !! zsc_default = Some d ->
         let st' := snd (zero_shot_classification text labels Omitted options
                           model st) in
         heap st' = <[zsc_default := dict_set "candidate_labels" labels d]>
                      (heap st)
         /\ dom (heap st') = dom (heap st)).
Proof.
  split.
  - intros st text labels options model. split; [done|].
    apply sent_by_app. simpl. by rewrite app_nil_r.
  - intros st text labels options model d Hd st'.
    assert (heap st' = <[zsc_default := dict_set "candidate_labels" labels d]>
                         (heap st)) as Hh.
    { subst st'.
      change (zero_shot_classification text labels Omitted options model)
        with (zero_shot_classification text labels (Passed (Some zsc_default))
                options model).
      rewrite (zero_shot_classification_run _ _ _ _ _ _ _ Hd).
      by rewrite _query_same_heap. }
    split; [done|]. rewrite Hh. rewrite dom_insert_L.
    apply subseteq_union_1_L, singleton_subseteq_l. by apply elem_of_dom.
Qed.

(** A comprehension whose every element yields a string. *)
Lemma comprehension_strings (f : json -> result json) items
    (value : list string) :
  Forall2 (fun item s => f item = Ok (JStr s)) items value ->
  comprehension f items = Ok (map JStr value).
Proof.
  induction 1 as [|item s items value Hs _ IH]; [done|].
  simpl. rewrite Hs. simpl. by rewrite IH.
Qed.

(** C7, as the code has it.  When the answer is a list of lists, one per
    row, whose first candidates have a string for [sequence], the
    [predictions] column is that string of each row, as many values as
    the table has rows.  When the answer is a flat list, the adapter
    assigns the one-element list that holds the [sequence] field of its
    first element: on a table of one row that is the [predictions]
    column, on a table of two rows or more the assignment raises
    [ValueError]. *)
Theorem fill_mask_in_df_predictions st df column options model predictions st' :
  _query_in_df df column None options model (Some "fill-mask") st
  = (Ok predictions, st') ->
  (forall items (value : list string),
      predictions = JList items ->
      items <> [] ->
      Forall2
        (fun item s =>
           exists c rest,
             item = JList (c :: rest) /\ getitem "sequence" c = Ok (JStr s))
        items value ->
      length items = index_len df ->
      fill_mask_in_df df column options model st
      = (Ok (mkDataFrame (index_len df)
               (dict_set "predictions" (map JStr value) (columns df))), st')
      /\ length value = index_len df)
  /\ (forall c rest s,
         predictions = JList (c :: rest) ->
         existsb is_list (c :: rest) = false ->
         getitem "sequence" c = Ok s ->
         fill_mask_in_df df column options model st
         = (df_setitem "predictions" [s] df, st')
         /\ (index_len df = 1 ->
             df_setitem "predictions" [s] df
             = Ok (mkDataFrame 1 (dict_set "predictions" [s] (columns df))))
         /\ (2 <= index_len df ->
             df_setitem "predictions" [s] df = Raise ValueError)).
Proof.
  intros Hq. split.
  - intros items value -> Hne Hrows Hlen.
    assert (length value = index_len df) as Hval
      by by rewrite <- (Forall2_length _ _ _ Hrows).
    split; [|done].
    unfold fill_mask_in_df, bind. rewrite Hq. simpl.
    assert (existsb is_list items = true) as ->.
    { destruct Hrows as [|? ? ? ? (c & rest & -> & _)]; done. }
    rewrite (comprehension_strings _ items value).
    2:{ eapply Forall2_impl; [exact Hrows|].
        intros item s (c & rest & -> & Hs). simpl. by rewrite Hs. }
    simpl. unfold lift, df_setitem. rewrite length_map, Hval.
    destruct items; [done|]. simpl in Hlen. rewrite <- Hlen. simpl.
    by rewrite Nat.eqb_refl.
  - intros c rest s -> Hflat Hs. split; [|split].
    + unfold fill_mask_in_df, bind. rewrite Hq.
      unfold lift at 1. unfold py_iter. rewrite Hflat.
      unfold lift at 1. unfold getitem0. unfold lift at 1. by rewrite Hs.
    + intros H1. unfold df_setitem. by rewrite H1.
    + intros H2. unfold df_setitem. simpl.
      destruct (index_len df) as [|[|n]]; [lia|lia|done].
Qed.
End Methods.

(** ** The claims on concrete calls *)

Section Concrete.
Import Fixture Scenario.

(** The question-answering test of the repository, with the service
    scripted: one POST to the model of the task, the question and the
    context under [inputs], the answer returned as parsed. *)
Example question_answering_end_to_end :
  let st := started [answer 200 clara] in
  let call := question_answering (JStr "What's my name?")
                (JStr "My name is Clara and I live in Berkeley") None in
  fst (call st) = Ok clara
  /\ sent_by call st
     = [mkRequest "POST"
          "https://api-inference.huggingface.co/models/deepset/roberta-base-squad2"
          [("Authorization", "Bearer hf_token")]
          (dumps (JDict [("inputs",
                          JDict [("question", JStr "What's my name?");
                                 ("context",
                                  JStr "My name is Clara and I live in Berkeley")])]))].
Proof. split; vm_compute; reflexivity. Qed.

Lemma query_body_is_envelope_witness :
  let st := with_caller_dict [answer 200 summary] in
  let call := _query (JStr "The tower is 324 metres tall.") (Some 1) None None
                (Some "summarization") in
  exists r body,
    sent_by call st = [r]
    /\ req_data r = json_dumps (JDict body)
    /\ body = envelope (JStr "The tower is 324 metres tall.")
                (arg_value (heap st) (Some 1)) (arg_value (heap st) None)
    /\ dict_get "inputs" body = Some (JStr "The tower is 324 metres tall.")
    /\ dict_get "parameters" body = arg_value (heap st) (Some 1)
    /\ dict_get "options" body = arg_value (heap st) None
    /\ (Some 1 = None <-> dict_get "parameters" body = None)
    /\ (@None loc = None <-> dict_get "options" body = None).
Proof.
  apply (query_body_is_envelope (with_caller_dict [answer 200 summary]) _
           (Some 1) None None (Some "summarization") "facebook/bart-large-cnn");
    [reflexivity|vm_compute; by eexists|exact I].
Defined.
Lemma query_url_witness :
  let st := started [answer 200 flat] in
  let call := _query (JStr "The sky is [MASK].") None None
                (Some "distilbert-base-uncased") (Some "fill-mask") in
  exists r,
    sent_by call st = [r]
    /\ req_url r
       = BASE_URL (config (client st)) +:+ "/" +:+ "distilbert-base-uncased"
    /\ (forall m, Some "distilbert-base-uncased" = Some m ->
        "distilbert-base-uncased" = m)
    /\ (Some "distilbert-base-uncased" = None ->
        exists t, Some "fill-mask" = Some t
                  /\ TASK_MODEL_MAP (config (client st)) !! t
                     = Some "distilbert-base-uncased").
Proof.
  apply (query_url (started [answer 200 flat]) _ None None
           (Some "distilbert-base-uncased") (Some "fill-mask")
           "distilbert-base-uncased");
    [reflexivity|exact I|exact I].
Defined.

(** C2 as stated fails on the empty model: it is not [None], so it is
    used, and the URL ends in the slash instead of the model of the
    task. *)
Lemma query_url_empty_model_counterexample :
  let st := started [answer 200 flat] in
  let call := _query (JStr "The sky is [MASK].") None None (Some EmptyString)
                (Some "fill-mask") in
  TASK_MODEL_MAP (config (client st)) !! "fill-mask" = Some "bert-base-uncased"
  /\ exists r,
      sent_by call st = [r]
      /\ req_url r = "https://api-inference.huggingface.co/models/"
      /\ req_url r
         <> BASE_URL (config (client st)) +:+ "/" +:+ "bert-base-uncased".
Proof.
  split; [reflexivity|]. eexists. split; [vm_compute; reflexivity|].
  split; [reflexivity|]. vm_compute. discriminate.
Qed.

Lemma query_returns_parsed_body_witness :
  let st := with_caller_dict [answer 503 loading] in
  fst (_query (JStr "The tower is 324 metres tall.") (Some 1) None None
         (Some "summarization") st) = Ok loading.
Proof.
  apply (query_returns_parsed_body (with_caller_dict [answer 503 loading]) _
           (Some 1) None None (Some "summarization") "facebook/bart-large-cnn"
           503 (encode (dumps loading)) [] (dumps loading) loading);
    [reflexivity|vm_compute; by eexists|exact I|reflexivity
    |vm_compute; reflexivity|vm_compute; reflexivity].
Defined.

Lemma query_unknown_task_witness :
  let st := started [answer 200 summary] in
  _query (JStr "Bonjour") None None None (Some "translation") st
  = (Raise KeyError, st)
  /\ sent_by (_query (JStr "Bonjour") None None None (Some "translation")) st
     = [].
Proof.
  apply (query_unknown_task (started [answer 200 summary]) (JStr "Bonjour")
           None None (Some "translation")).
  reflexivity.
Defined.

Lemma query_request_shape_witness :
  let st := started [answer 200 flat] in
  let call := _query (JStr "The sky is [MASK].") None None None
                (Some "fill-mask") in
  exists r body,
    sent_by call st = [r]
    /\ req_method r = "POST"
    /\ req_headers r = [("Authorization", "Bearer " +:+ api_token (client st))]
    /\ req_data r = json_dumps (JDict body)
    /\ existsb json_content_header (req_headers r) = false.
Proof.
  apply (query_request_shape (started [answer 200 flat]) _ None None None
           (Some "fill-mask") "bert-base-uncased");
    [reflexivity|exact I|exact I].
Defined.

(** C8 as stated fails: the one header of the request is the bearer
    token, and none says that the content is JSON. *)
Lemma query_json_content_header_counterexample :
  let st := started [answer 200 flat] in
  let call := _query (JStr "The sky is [MASK].") None None None
                (Some "fill-mask") in
  exists r,
    sent_by call st = [r]
    /\ req_headers r = [("Authorization", "Bearer hf_token")]
    /\ ~ exists h, In h (req_headers r) /\ json_content_header h = true.
Proof.
  eexists. split; [vm_compute; reflexivity|]. split; [reflexivity|].
  intros (h & [<-|[]] & Hj). vm_compute in Hj. discriminate.
Qed.

Lemma summarization_in_df_drops_parameters_witness :
  let st := with_caller_dict [answer 200 summary] in
  let df := mkDataFrame 1 [("text", [JStr "The tower is 324 metres tall."])] in
  exists r body,
    sent_by (summarization_in_df df "text" (Some 1) None None) st = [r]
    /\ req_data r = json_dumps (JDict body)
    /\ body = envelope (JList [JStr "The tower is 324 metres tall."]) None
                (arg_value (heap st) None)
    /\ dict_get "parameters" body = None.
Proof.
  apply (summarization_in_df_drops_parameters
           (with_caller_dict [answer 200 summary])
           (mkDataFrame 1 [("text", [JStr "The tower is 324 metres tall."])])
           "text" (Some 1) None None "facebook/bart-large-cnn");
    [reflexivity|exact I|reflexivity].
Defined.

(** The same text and the same dictionary through [summarization] and
    through [summarization_in_df]: the first request carries
    [parameters], the second does not. *)
Example summarization_and_its_adapter :
  let st := with_caller_dict [answer 200 summary] in
  let text := JStr "The tower is 324 metres tall." in
  map req_data (sent_by (summarization (JList [text]) (Some 1) None None) st)
  = [dumps (JDict [("inputs", JList [text]);
                   ("parameters", JDict [("max_length", JInt 20)])])]
  /\ map req_data
       (sent_by (summarization_in_df (mkDataFrame 1 [("text", [text])]) "text"
                   (Some 1) None None) st)
     = [dumps (JDict [("inputs", JList [text])])].
Proof. split; vm_compute; reflexivity. Qed.
Lemma after_one_call_reachable w : reachable (after_one_call w).
Proof. exists "hf_token", cfg, w. apply rtc_once. apply step_call. Qed.

Lemma zero_shot_classification_inserts_labels_witness :
  heap (started [answer 200 verdict]) !! zsc_default = Some []
  /\
  (let st := with_caller_dict [answer 200 verdict] in
   let st' := snd (zero_shot_classification complaint labels (Passed (Some 1))
                     None None st) in
   heap st' = <[1 := dict_set "candidate_labels" labels caller_dict]> (heap st)
   /\ (exists d', heap st' !! 1 = Some d'
                  /\ dict_get "candidate_labels" d' = Some labels
                  /\ forall k, k <> "candidate_labels" ->
                               dict_get k d' = dict_get k caller_dict)
   /\ exists r body,
       sent_by (zero_shot_classification complaint labels (Passed (Some 1))
                  None None) st = [r]
       /\ req_data r = json_dumps (JDict body)
       /\ body = envelope complaint
                   (Some (JDict (dict_set "candidate_labels" labels caller_dict)))
                   (arg_value (heap st') None)
       /\ dict_get "parameters" body = JDict <$> heap st' !! 1)
  /\ (let st := after_one_call [answer 200 verdict; answer 200 verdict] in
      let st' := snd (zero_shot_classification complaint labels Omitted None
                        None st) in
      exists r body,
        sent_by (zero_shot_classification complaint labels Omitted None None) st
        = [r]
        /\ req_data r = json_dumps (JDict body)
        /\ body = envelope complaint
                    (Some (JDict [("candidate_labels", labels)]))
                    (arg_value (heap st') None)).
Proof.
  destruct zero_shot_classification_inserts_labels as (Hmade & Hgiven & Hleft).
  split; [apply Hmade|]. split.
  - apply (Hgiven (with_caller_dict [answer 200 verdict]) complaint labels 1
             caller_dict None None "facebook/bart-large-mnli");
      [reflexivity|exact I|reflexivity].
  - apply (Hleft (after_one_call [answer 200 verdict; answer 200 verdict])
             complaint labels None None "facebook/bart-large-mnli");
      [apply after_one_call_reachable|exact I|reflexivity].
Defined.

(** The default dictionary before the second call holds the labels of the
    first, and the body of the second has the new ones only. *)
Example zero_shot_classification_twice :
  let st := after_one_call [answer 200 verdict; answer 200 verdict] in
  heap st !! zsc_default
  = Some [("candidate_labels", JList [JStr "shipping"; JStr "billing"])]
  /\ map req_data
       (sent_by (zero_shot_classification complaint labels Omitted None None) st)
     = [dumps (JDict [("inputs", complaint);
                      ("parameters", JDict [("candidate_labels", labels)])])].
Proof. split; vm_compute; reflexivity. Qed.

Lemma fill_mask_in_df_predictions_witness :
  (let st := started [answer 200 batched3] in
   let value := ["paris is the capital of france."; "the sky is blue.";
                 "i love you."] in
   fill_mask_in_df table3 "text" None None st
   = (Ok (mkDataFrame (index_len table3)
            (dict_set "predictions" (map JStr value) (columns table3))),
      snd (_query_in_df table3 "text" None None None (Some "fill-mask") st))
   /\ length value = index_len table3)
  /\ (let st := started [answer 200 flat] in
      let s := JStr "the sky is blue." in
      fill_mask_in_df table1 "text" None None st
      = (df_setitem "predictions" [s] table1,
         snd (_query_in_df table1 "text" None None None (Some "fill-mask") st))
      /\ (index_len table1 = 1 ->
          df_setitem "predictions" [s] table1
          = Ok (mkDataFrame 1 (dict_set "predictions" [s] (columns table1))))
      /\ (2 <= index_len table1 ->
          df_setitem "predictions" [s] table1 = Raise ValueError)).
Proof.
  split.
  - refine (proj1 (fill_mask_in_df_predictions (started [answer 200 batched3])
                     table3 "text" None None batched3
                     (snd (_query_in_df table3 "text" None None None
                             (Some "fill-mask") (started [answer 200 batched3])))
                     _)
              _ ["paris is the capital of france."; "the sky is blue.";
                 "i love you."] eq_refl _ _ _).
    + apply run_fst. vm_compute. reflexivity.
    + discriminate.
    + repeat constructor; eexists _, _; split; reflexivity.
    + reflexivity.
  - refine (proj2 (fill_mask_in_df_predictions (started [answer 200 flat])
                     table1 "text" None None flat
                     (snd (_query_in_df table1 "text" None None None
                             (Some "fill-mask") (started [answer 200 flat])))
                     _)
              _ _ (JStr "the sky is blue.") eq_refl _ _).
    + apply run_fst. vm_compute. reflexivity.
    + reflexivity.
    + reflexivity.
Defined.

(** C7 as stated fails on a table of three rows with a flat answer: the
    assignment of the one-element list raises, and no [predictions]
    column is written. *)
Lemma fill_mask_in_df_flat_counterexample :
  let st := started [answer 200 flat] in
  fst (_query_in_df table3 "text" None None None (Some "fill-mask") st) = Ok flat
  /\ fst (fill_mask_in_df table3 "text" None None st) = Raise ValueError
  /\ ~ exists df,
        fst (fill_mask_in_df table3 "text" None None st) = Ok df
        /\ dict_get "predictions" (columns df) = Some [JStr "the sky is blue."].
Proof.
  assert (fst (fill_mask_in_df table3 "text" None None
                 (started [answer 200 flat])) = Raise ValueError) as H
    by (vm_compute; reflexivity).
  split; [vm_compute; reflexivity|]. split; [exact H|].
  intros (df & Hdf & _). cbv zeta in Hdf. rewrite H in Hdf. discriminate.
Qed.

Lemma zero_shot_classification_none_and_default_witness :
  (let st := with_caller_dict [answer 200 verdict] in
   zero_shot_classification complaint labels (Passed None) None None st
   = (Raise TypeError, st)
   /\ sent_by (zero_shot_classification complaint labels (Passed None) None
                 None) st = [])
  /\ (let st := after_one_call [answer 200 verdict; answer 200 verdict] in
      let st' := snd (zero_shot_classification complaint labels Omitted None
                        None st) in
      heap st'
      = <[zsc_default :=
            dict_set "candidate_labels" labels
              [("candidate_labels", JList [JStr "shipping"; JStr "billing"])]]>
          (heap st)
      /\ dom (heap st') = dom (heap st)).
Proof.
  split.
  - apply (proj1 zero_shot_classification_none_and_default).
  - apply (proj2 zero_shot_classification_none_and_default
             (after_one_call [answer 200 verdict; answer 200 verdict])).
    vm_compute. reflexivity.
Defined.
End Concrete.

(** ** Every method, through the dispatcher *)

Section Coverage.
Context `{RT : Runtime}.

#[local] Instance same_wire_po : PreOrder same_wire.
Proof.
  split; [by intros st|].
  intros x y z [? ?] [? ?]. split; congruence.
Qed.

(** Walks a computation that neither sends nor writes. *)
Ltac quiet :=
  repeat first
    [ solve [apply preserves_lift; typeclasses eauto]
    | solve [apply preserves_ret; typeclasses eauto]
    | solve [apply preserves_raise; typeclasses eauto]
    | apply preserves_bind; [typeclasses eauto| |intros ?]
    | match goal with
      | |- preserves _ (match ?x with _ => _ end) => destruct x
      | |- preserves _ (if ?b then _ else _) => destruct b
      end
    | progress cbv beta zeta ].

Lemma setitem_same_wire target k v : preserves same_wire (setitem target k v).
Proof.
  intros st. destruct target as [l|]; [|done].
  destruct (heap st !! l) as [d|] eqn:Hl.
  - by rewrite (setitem_run _ _ _ _ _ Hl).
  - by rewrite (setitem_dangling _ _ _ _ Hl).
Qed.

(** A dictionary argument that refers to nothing stops the dispatcher
    before the request. *)
Lemma _query_dangling st inputs parameters options model task target :
  target_of (client st) model task = Some target ->
  ~ (live (heap st) parameters /\ live (heap st) options) ->
  _query inputs parameters options model task st = (Raise DanglingReference, st).
Proof.
  intros Ht Hdead.
  unfold _query, bind, get_self at 1.
  assert ((match model with
           | Some m => ret m
           | None =>
               match task ≫= (fun t => TASK_MODEL_MAP (config (client st)) !! t) with
               | Some m => ret m
               | None => raise KeyError
               end
           end) st = (Ok target, st)) as ->.
  { unfold target_of in Ht. destruct model; simplify_eq; [done|].
    by rewrite Ht. }
  unfold dumps. cbv zeta.
  destruct parameters as [p|], options as [o|]; simpl in *;
    unfold deref_items; simpl;
    repeat match goal with
           | |- context [heap st !! ?l] =>
               let E := fresh "E" in destruct (heap st !! l) eqn:E; simpl
           end;
    try done; exfalso; apply Hdead; eauto.
Qed.

Lemma live_dec h a : Decision (live h a).
Proof. destruct a; simpl; apply _. Qed.

(** What a call of the dispatcher does to the client and the log. *)
Lemma posts_query inputs parameters options model task :
  posts (dispatched model task parameters)
    (_query inputs parameters options model task).
Proof.
  intros st.
  destruct (target_of (client st) model task) as [target|] eqn:Ht;
    [|rewrite (_query_unresolved _ _ _ _ _ _ Ht); auto].
  destruct (live_dec (heap st) parameters) as [Hp|Hp];
    [|rewrite (_query_dangling _ _ _ _ _ _ _ Ht); [auto|tauto]].
  destruct (live_dec (heap st) options) as [Ho|Ho];
    [|rewrite (_query_dangling _ _ _ _ _ _ _ Ht); [auto|tauto]].
  rewrite (_query_run _ _ _ _ _ _ _ Ht Hp Ho). cbv zeta. simpl.
  split; [done|]. right. eexists. split; [done|].
  eexists _, _, _, _. split; [done|]. split; [done|]. by intros ->.
Qed.

Lemma posts_weaken {A : Type} (P Q : NLP -> Request -> Prop) (m : M A) :
  (forall self r, P self r -> Q self r) -> posts P m -> posts Q m.
Proof.
  intros HPQ Hm st. destruct (Hm st) as [Hc [Hs|(r & Hs & Hr)]]; eauto 6.
Qed.

(** Steps that send nothing, before the request and after it. *)
Lemma posts_before {A B : Type} P (m : M A) (k : A -> M B) :
  preserves same_wire m -> (forall a, posts P (k a)) -> posts P (bind m k).
Proof.
  intros Hm Hk st. unfold bind. destruct (Hm st) as [Hc Hs].
  destruct (m st) as [[a|e] st1]; simpl in *; [|by auto].
  destruct (Hk a st1) as [Hc' Hs']. rewrite Hc, Hs in *. done.
Qed.

Lemma posts_after {A B : Type} P (m : M A) (k : A -> M B) :
  posts P m -> (forall a, preserves eq (k a)) -> posts P (bind m k).
Proof. intros Hm Hk st. rewrite (bind_silent _ _ _ Hk). apply Hm. Qed.

Lemma posts_fmap {A B : Type} P (f : A -> B) (m : M A) :
  posts P m -> posts P (fmap_M f m).
Proof. intros Hm. apply posts_after; [done|]. intros a. quiet. Qed.

Lemma posts_query_in_df df column parameters options model task :
  posts (dispatched model task parameters)
    (_query_in_df df column parameters options model task).
Proof.
  apply posts_before; [quiet|]. intros inputs. apply posts_query.
Qed.

(** The requests of a call are those of the dispatcher for the model of
    the call and the task of its method. *)
Lemma exec_posts c :
  posts
    (fun self r =>
       exists target inputs pv ov,
         target_of self (model_of c) (Some (task_of c)) = Some target
         /\ r = request_of self target (envelope inputs pv ov)
         /\ (carries_parameters c = false -> pv = None))
    (exec c).
Proof.
  destruct c; simpl; apply posts_fmap.
  all: try (eapply posts_weaken; [|apply posts_query];
            intros self r (t & i & pv & ov & ? & ? & Hpv);
            eexists t, i, pv, ov; repeat split; auto; done).
  all: try (apply posts_after; [|intros a; quiet];
            eapply posts_weaken; [|apply posts_query_in_df];
            intros self r (t & i & pv & ov & ? & ? & Hpv);
            eexists t, i, pv, ov; repeat split; auto; done).
  unfold zero_shot_classification. cbv zeta.
  apply posts_before; [apply setitem_same_wire|]. intros _.
  eapply posts_weaken; [|apply posts_query].
  intros self r (t & i & pv & ov & ? & ? & Hpv).
  eexists t, i, pv, ov. repeat split; auto; done.
Qed.

Lemma posts_sent_by {A : Type} P (m : M A) st :
  posts P m ->
  sent_by m st = [] \/ exists r, sent_by m st = [r] /\ P (client st) r.
Proof.
  intros Hm. destruct (Hm st) as [_ [Hs|(r & Hs & Hr)]].
  - left. apply sent_by_app. by rewrite app_nil_r.
  - right. exists r. split; [by apply sent_by_app|done].
Qed.
End Coverage.

Section Extras.
Context `{RT : Runtime}.

#[local] Existing Instance same_heap_po.

(** Walks a computation that leaves the store as it was. *)
Ltac store :=
  repeat first
    [ solve [apply preserves_lift; typeclasses eauto]
    | solve [apply preserves_ret; typeclasses eauto]
    | solve [apply preserves_raise; typeclasses eauto]
    | apply _query_same_heap
    | apply _query_in_df_same_heap
    | apply preserves_bind; [typeclasses eauto| |intros ?]
    | match goal with
      | |- preserves _ (match ?x with _ => _ end) => destruct x
      | |- preserves _ (if ?b then _ else _) => destruct b
      | |- preserves _ (fmap_M _ _) => unfold fmap_M
      end
    | progress cbv beta zeta ].

(** X1.  Every call of a public method sends nothing or one request; the
    request is a POST with the bearer token of the client as its only
    header, to the base URL followed by the model of the call or, without
    one, by the entry of the method's own task in the map. *)
Theorem exec_sends_at_most_one c st :
  sent_by (exec c) st = []
  \/ exists r target,
      sent_by (exec c) st = [r]
      /\ target_of (client st) (model_of c) (Some (task_of c)) = Some target
      /\ req_method r = "POST"
      /\ req_url r = BASE_URL (config (client st)) +:+ "/" +:+ target
      /\ req_headers r
         = [("Authorization", "Bearer " +:+ api_token (client st))].
Proof.
  destruct (posts_sent_by _ _ st (exec_posts c))
    as [H|(r & H & t & i & pv & ov & Ht & -> & _)]; [by left|].
  right. eexists _, t. split; [exact H|]. by split.
Qed.

(** X2.  The methods that take no [parameters], and
    [summarization_in_df], which takes them and drops them, never send a
    body with a [parameters] key. *)
Theorem exec_without_parameters c st r :
  carries_parameters c = false ->
  In r (sent_by (exec c) st) ->
  exists body,
    req_data r = json_dumps (JDict body) /\ dict_get "parameters" body = None.
Proof.
  intros Hc Hin.
  destruct (posts_sent_by _ _ st (exec_posts c))
    as [H|(r' & H & t & i & pv & ov & Ht & -> & Hpv)];
    rewrite H in Hin; [done|].
  destruct Hin as [<-|[]]. eexists. split; [done|].
  rewrite envelope_parameters. auto.
Qed.

(** X3.  No method but [zero_shot_classification] writes into a
    dictionary of the caller: after the call the store is as before. *)
Theorem exec_leaves_store c st :
  is_zero_shot c = false -> heap (snd (exec c st)) = heap st.
Proof.
  intros Hc.
  assert (preserves same_heap (exec c)) as H; [|apply H].
  destruct c; try discriminate;
    unfold exec, fill_mask, fill_mask_in_df, summarization,
      summarization_in_df, question_answering, sentence_similarity,
      text_classification, text_classification_in_df, text_generation,
      conversational, feature_extraction; store.
Qed.

(** What the assignment of a column of the right length gives. *)
Lemma df_setitem_same_length name value df :
  length value = index_len df ->
  df_setitem name value df
  = Ok (mkDataFrame (index_len df) (dict_set name value (columns df))).
Proof.
  intros H. unfold df_setitem. rewrite H, Nat.eqb_refl.
  by destruct (index_len df).
Qed.

Lemma df_setitem_frame name value df df' :
  df_setitem name value df = Ok df' ->
  0 < index_len df ->
  index_len df' = index_len df
  /\ length value = index_len df
  /\ columns df' = dict_set name value (columns df).
Proof.
  unfold df_setitem. intros H Hpos.
  destruct (index_len df) as [|n] eqn:Hn; [lia|]. simpl in H.
  destruct (Nat.eqb_spec (length value) (S n)); [|done].
  by simplify_eq.
Qed.

(** An adapter that returns a table has assigned it a [predictions]
    column. *)
Lemma adapter_assigns c df column df' st :
  table_of c = Some (df, column) ->
  fst (exec c st) = Ok (RFrame df') ->
  exists value, df_setitem "predictions" value df = Ok df'.
Proof.
  intros Hc.
  destruct c; simplify_eq/=;
    unfold fmap_M, fill_mask_in_df, summarization_in_df,
      text_classification_in_df, bind, lift, ret;
    repeat (case_match; simplify_eq/=; try done);
    intros [= <-]; eauto.
Qed.

(** X4.  A tabular adapter that returns, on a table that has rows,
    returns a table of as many rows whose [predictions] column has one
    value per row and whose other columns are as they were. *)
Theorem adapter_writes_predictions_only c df column df' st :
  table_of c = Some (df, column) ->
  fst (exec c st) = Ok (RFrame df') ->
  0 < index_len df ->
  index_len df' = index_len df
  /\ (exists value,
        dict_get "predictions" (columns df') = Some value
        /\ length value = index_len df)
  /\ forall name,
      name <> "predictions" ->
      dict_get name (columns df') = dict_get name (columns df).
Proof.
  intros Hc Hr Hpos.
  destruct (adapter_assigns _ _ _ _ _ Hc Hr) as [value Hset].
  destruct (df_setitem_frame _ _ _ _ Hset Hpos) as (Hn & Hlen & Hcols).
  split; [done|]. rewrite Hcols. split.
  - exists value. by rewrite dict_get_set_eq.
  - intros name Hne. apply dict_get_set_ne. congruence.
Qed.

(** X5.  A tabular adapter called with a column the table does not have
    raises [KeyError] and does nothing else: no request is sent. *)
Theorem adapter_missing_column c df column st :
  table_of c = Some (df, column) ->
  dict_get column (columns df) = None ->
  exec c st = (Raise KeyError, st).
Proof.
  intros Hc Hcol.
  destruct c; simplify_eq/=;
    unfold fmap_M, fill_mask_in_df, summarization_in_df,
      text_classification_in_df, _query_in_df, bind, lift, df_getitem;
    by rewrite Hcol.
Qed.
Lemma comprehension_raise {A B : Type} (f : A -> result B) x l e :
  f x = Raise e -> comprehension f (x :: l) = Raise e.
Proof. intros H. simpl. by rewrite H. Qed.

Lemma str_chars_nonempty c s : str_chars (String c s) <> [].
Proof.
  simpl. destruct s as [|c' s']; [done|].
  destruct (str_chars (String c' s')); [done|]. by destruct is_continuation.
Qed.

(** X6.  When the answer is a JSON object, as the service gives for an
    error, the adapters raise instead of returning the table:
    [fill_mask_in_df] raises [KeyError]; [summarization_in_df] raises
    [TypeError] when the object has a key; [text_classification_in_df]
    raises [TypeError] when its first key is not the empty string. *)
Theorem adapters_on_an_object :
  (forall df column options model st st' d,
      _query_in_df df column None options model (Some "fill-mask") st
      = (Ok (JDict d), st') ->
      fill_mask_in_df df column options model st = (Raise KeyError, st'))
  /\ (forall df column parameters options model st st' k v d,
         _query_in_df df column None options model (Some "summarization") st
         = (Ok (JDict ((k, v) :: d)), st') ->
         summarization_in_df df column parameters options model st
         = (Raise TypeError, st'))
  /\ (forall df column options model st st' c k v d,
         _query_in_df df column None options model
           (Some "text-classification") st
         = (Ok (JDict ((String c k, v) :: d)), st') ->
         text_classification_in_df df column options model st
         = (Raise TypeError, st')).
Proof.
  split; [|split].
  - intros df column options model st st' d Hq.
    unfold fill_mask_in_df, bind. rewrite Hq. simpl.
    assert (existsb is_list (map (fun kv => JStr (fst kv)) d) = false) as ->;
      [|done].
    clear. induction d as [|kv d IH]; [done|exact IH].
  - intros df column parameters options model st st' k v d Hq.
    unfold summarization_in_df, bind. by rewrite Hq.
  - intros df column options model st st' c k v d Hq.
    unfold text_classification_in_df, bind. rewrite Hq.
    unfold lift at 1. unfold py_iter. unfold lift at 1.
    rewrite map_cons, (comprehension_raise _ _ _ TypeError); [done|].
    pose proof (str_chars_nonempty c k) as Hne. simpl fst. unfold getitem0.
    by destruct (str_chars (String c k)).
Qed.

(** X7.  When the answer is a list with one element per row, each an
    object whose [summary_text] is a string, [summarization_in_df]
    returns the table with these strings, in order, as its [predictions]
    column; an empty table with an empty answer gets an empty column. *)
Theorem summarization_in_df_predictions st df column parameters options model
    items (value : list string) st' :
  _query_in_df df column None options model (Some "summarization") st
  = (Ok (JList items), st') ->
  Forall2 (fun item s => getitem "summary_text" item = Ok (JStr s)) items
    value ->
  length items = index_len df ->
  summarization_in_df df column parameters options model st
  = (Ok (mkDataFrame (index_len df)
           (dict_set "predictions" (map JStr value) (columns df))), st').
Proof.
  intros Hq Hitems Hlen.
  unfold summarization_in_df, bind. rewrite Hq. simpl.
  rewrite (comprehension_strings _ _ _ Hitems). simpl. unfold lift.
  rewrite df_setitem_same_length; [done|].
  by rewrite length_map, <- (Forall2_length _ _ _ Hitems).
Qed.

(** X8.  When the answer is a list with one element per row, each a
    non-empty list whose first element is an object whose [label] is a
    string, [text_classification_in_df] returns the table with these
    strings, in order, as its [predictions] column. *)
Theorem text_classification_in_df_predictions st df column options model
    items (value : list string) st' :
  _query_in_df df column None options model (Some "text-classification") st
  = (Ok (JList items), st') ->
  Forall2
    (fun item s =>
       exists c rest,
         item = JList (c :: rest) /\ getitem "label" c = Ok (JStr s))
    items value ->
  length items = index_len df ->
  text_classification_in_df df column options model st
  = (Ok (mkDataFrame (index_len df)
           (dict_set "predictions" (map JStr value) (columns df))), st').
Proof.
  intros Hq Hitems Hlen.
  unfold text_classification_in_df, bind. rewrite Hq. simpl.
  rewrite (comprehension_strings _ items value).
  - simpl. unfold lift. rewrite df_setitem_same_length; [done|].
    by rewrite length_map, <- (Forall2_length _ _ _ Hitems).
  - eapply Forall2_impl; [exact Hitems|].
    intros item s (c & rest & -> & Hs). simpl. by rewrite Hs.
Qed.

(** X9.  On an empty answer [fill_mask_in_df] raises [IndexError]: no
    element is a list, so the first element is asked for. *)
Theorem fill_mask_in_df_empty_answer st df column options model st' :
  _query_in_df df column None options model (Some "fill-mask") st
  = (Ok (JList []), st') ->
  fill_mask_in_df df column options model st = (Raise IndexError, st').
Proof. intros Hq. unfold fill_mask_in_df, bind. by rewrite Hq. Qed.

Lemma dict_set_set {A : Type} (k : string) (v w : A) (d : list (string * A)) :
  dict_set k w (dict_set k v d) = dict_set k w d.
Proof.
  induction d as [|[k' v'] d IH]; simpl.
  - by rewrite String.eqb_refl.
  - destruct (String.eqb k k') eqn:E; simpl.
    + by rewrite String.eqb_refl.
    + by rewrite E, IH.
Qed.

(** The store after a call with a dictionary object, whatever comes of
    the request. *)
Lemma zero_shot_classification_store st text labels l d options model :
  heap st !! l = Some d ->
  heap (snd (zero_shot_classification text labels (Passed (Some l)) options
               model st))
  = <[l := dict_set "candidate_labels" labels d]> (heap st).
Proof.
  intros Hl. rewrite (zero_shot_classification_run _ _ _ _ _ _ _ Hl).
  by rewrite _query_same_heap.
Qed.

(** X10.  Two calls of [zero_shot_classification] with the same
    dictionary: the labels of the second replace those of the first, in
    place; the store is as after the second call alone. *)
Theorem zero_shot_classification_twice_overwrites st l d
    text1 labels1 options1 model1 text2 labels2 options2 model2 :
  heap st !! l = Some d ->
  let st1 := snd (zero_shot_classification text1 labels1 (Passed (Some l))
                    options1 model1 st) in
  let st2 := snd (zero_shot_classification text2 labels2 (Passed (Some l))
                    options2 model2 st1) in
  heap st2 = <[l := dict_set "candidate_labels" labels2 d]> (heap st).
Proof.
  intros Hl st1 st2.
  assert (heap st1 = <[l := dict_set "candidate_labels" labels1 d]> (heap st))
    as H1 by by apply zero_shot_classification_store.
  subst st2.
  rewrite (zero_shot_classification_store st1 _ _ l
             (dict_set "candidate_labels" labels1 d));
    [|by rewrite H1, lookup_insert_eq].
  by rewrite H1, insert_insert_eq, dict_set_set.
Qed.

(** X11.  The labels are written before the model is resolved: when the
    call has no model and the map has no entry for
    [zero-shot-classification], the call raises [KeyError], sends nothing,
    and the caller's dictionary has the labels all the same. *)
Theorem zero_shot_classification_writes_then_fails st text labels l d options :
  heap st !! l = Some d ->
  TASK_MODEL_MAP (config (client st)) !! "zero-shot-classification" = None ->
  zero_shot_classification text labels (Passed (Some l)) options None st
  = (Raise KeyError,
     set_heap (<[l := dict_set "candidate_labels" labels d]> (heap st)) st).
Proof.
  intros Hl Hmap. rewrite (zero_shot_classification_run _ _ _ _ _ _ _ Hl).
  by apply _query_unresolved.
Qed.

(** X12.  One dictionary passed both as [parameters] and as [options]:
    the labels written for the first show under the second too. *)
Theorem zero_shot_classification_aliased st text labels l d model target :
  heap st !! l = Some d ->
  target_of (client st) model (Some "zero-shot-classification") = Some target ->
  exists r body written,
    sent_by (zero_shot_classification text labels (Passed (Some l)) (Some l)
               model) st = [r]
    /\ req_data r = json_dumps (JDict body)
    /\ written = JDict (dict_set "candidate_labels" labels d)
    /\ body = envelope text (Some written) (Some written).
Proof.
  intros Hl Ht.
  destruct (zero_shot_classification_effect st text labels l d (Some l) model
              target Hl) as [_ Hs]; [by simpl; eauto|done|].
  cbv zeta in Hs. eexists _, _, _. split; [exact Hs|].
  split; [done|]. split; [done|]. simpl. by rewrite lookup_insert_eq.
Qed.

(** X13.  The [inputs] of [conversational] is an object with the text
    and, only when they are not [None], the earlier inputs and
    responses. *)
Theorem conversational_inputs st text past_user_inputs generated_responses
    parameters options model target :
  target_of (client st) model (Some "conversational") = Some target ->
  live (heap st) parameters ->
  live (heap st) options ->
  exists r inputs,
    sent_by (conversational text past_user_inputs generated_responses
               parameters options model) st = [r]
    /\ req_data r
       = json_dumps
           (JDict (envelope (JDict inputs)
                     (arg_value (heap st) parameters)
                     (arg_value (heap st) options)))
    /\ inputs = conversation text past_user_inputs generated_responses
    /\ dict_get "text" inputs = Some text
    /\ dict_get "past_user_inputs" inputs = past_user_inputs
    /\ dict_get "generated_responses" inputs = generated_responses.
Proof.
  intros Ht Hp Ho. eexists _, _. split.
  { unfold conversational. cbv zeta. by apply _query_sent. }
  split; [|split].
  - f_equal.
  - by destruct past_user_inputs, generated_responses.
  - by destruct past_user_inputs, generated_responses.
Qed.

(** X14.  A failure after the request is the caller's: an exception of
    [requests], of the decoder or of the JSON parser is raised as it is,
    the one request stays sent, none is sent again, and the store is as
    before. *)
Theorem query_failure_propagates st inputs parameters options model task
    target e :
  target_of (client st) model task = Some target ->
  live (heap st) parameters ->
  live (heap st) options ->
  let r := request_of (client st) target
             (envelope inputs (arg_value (heap st) parameters)
                (arg_value (heap st) options)) in
  (fst (requests_request r (world st)) = Raise e
   \/ (exists response,
         fst (requests_request r (world st)) = Ok response
         /\ (decode_utf8 (content response) = Raise e
             \/ exists text,
                 decode_utf8 (content response) = Ok text
                 /\ json_loads text = Raise e))) ->
  fst (_query inputs parameters options model task st) = Raise e
  /\ sent_by (_query inputs parameters options model task) st = [r]
  /\ heap (snd (_query inputs parameters options model task st)) = heap st.
Proof.
  intros Ht Hp Ho r Hfail.
  split; [|split; [by apply _query_sent|by rewrite _query_same_heap]].
  rewrite (_query_run _ _ _ _ _ _ _ Ht Hp Ho). cbv zeta. simpl. fold r.
  unfold answer_of.
  destruct Hfail as [->|(response & -> & [Hd|(text & Hd & Hl)])]; simpl;
    rewrite ?Hd; simpl; done.
Qed.

(** X15.  Whatever methods a program calls, and whatever dictionaries it
    makes or writes, the client keeps the token and the configuration
    that [__init__] stored. *)
Theorem client_stays_as_constructed token get_config_dict w st :
  rtc caller_step (boot token get_config_dict w) st ->
  api_token (client st) = token /\ config (client st) = get_config_dict.
Proof. intros H. by rewrite (reachable_client _ _ _ _ H). Qed.
End Extras.

(** ** The further properties on concrete calls *)

Section ExtrasConcrete.
Import Fixture Scenario.

Lemma exec_without_parameters_witness :
  let st := started [answer 200 flat] in
  let c := Call_fill_mask (JStr "The sky is [MASK].") None None in
  let r := mkRequest "POST"
             "https://api-inference.huggingface.co/models/bert-base-uncased"
             [("Authorization", "Bearer hf_token")]
             (dumps (JDict [("inputs", JStr "The sky is [MASK].")])) in
  In r (sent_by (exec c) st)
  /\ exists body,
      req_data r = json_dumps (JDict body)
      /\ dict_get "parameters" body = None.
Proof.
  assert (In (mkRequest "POST"
                "https://api-inference.huggingface.co/models/bert-base-uncased"
                [("Authorization", "Bearer hf_token")]
                (dumps (JDict [("inputs", JStr "The sky is [MASK].")])))
             (sent_by (exec (Call_fill_mask (JStr "The sky is [MASK].") None
                               None))
                (started [answer 200 flat]))) as Hin
    by (vm_compute; left; reflexivity).
  split; [exact Hin|].
  exact (exec_without_parameters
           (Call_fill_mask (JStr "The sky is [MASK].") None None) _ _ eq_refl
           Hin).
Defined.

Lemma exec_leaves_store_witness :
  let st := with_caller_dict [answer 200 summary] in
  let c := Call_text_generation (JStr "The answer to the universe is")
             (Some 1) None None in
  heap (snd (exec c st)) = heap st.
Proof.
  exact (exec_leaves_store
           (Call_text_generation (JStr "The answer to the universe is")
              (Some 1) None None)
           (with_caller_dict [answer 200 summary]) eq_refl).
Defined.

Lemma adapter_writes_predictions_only_witness :
  let st := started [answer 200 summaries2] in
  let c := Call_summarization_in_df table2 "text" None None None in
  let df' := mkDataFrame 2
               (columns table2
                ++ [("predictions", [JStr "A tower."; JStr "Affection."])]) in
  fst (exec c st) = Ok (RFrame df')
  /\ index_len df' = index_len table2
  /\ (exists value,
        dict_get "predictions" (columns df') = Some value
        /\ length value = index_len table2)
  /\ forall name,
      name <> "predictions" ->
      dict_get name (columns df') = dict_get name (columns table2).
Proof.
  assert (fst (exec (Call_summarization_in_df table2 "text" None None None)
                 (started [answer 200 summaries2]))
          = Ok (RFrame
                  (mkDataFrame 2
                     (columns table2
                      ++ [("predictions",
                           [JStr "A tower."; JStr "Affection."])]))))
    as Hr by (vm_compute; reflexivity).
  split; [exact Hr|].
  apply (adapter_writes_predictions_only
           (Call_summarization_in_df table2 "text" None None None) table2
           "text" _ _ eq_refl Hr).
  simpl. lia.
Defined.

Lemma adapter_missing_column_witness :
  let st := started [answer 200 sentiments2] in
  let c := Call_text_classification_in_df table2 "review" None None in
  exec c st = (Raise KeyError, st).
Proof.
  apply (adapter_missing_column
           (Call_text_classification_in_df table2 "review" None None) table2
           "review" (started [answer 200 sentiments2]));
    reflexivity.
Defined.

Lemma adapters_on_an_object_witness :
  let st := started [answer 503 loading] in
  fill_mask_in_df table2 "text" None None st
  = (Raise KeyError,
     snd (_query_in_df table2 "text" None None None (Some "fill-mask") st))
  /\ summarization_in_df table2 "text" None None None st
     = (Raise TypeError,
        snd (_query_in_df table2 "text" None None None (Some "summarization")
               st))
  /\ text_classification_in_df table2 "text" None (Some "distilbert") st
     = (Raise TypeError,
        snd (_query_in_df table2 "text" None None (Some "distilbert")
               (Some "text-classification") st)).
Proof.
  destruct adapters_on_an_object as (Hfill & Hsum & Hcls).
  split; [|split]; cycle 2.
  { eapply (Hcls table2 "text" None (Some "distilbert")
              (started [answer 503 loading]) _ "e"%char "rror"
              (JStr "Model facebook/bart-large-cnn is currently loading")
              [("estimated_time", JFloat 20.5)]).
    apply run_fst. vm_compute. reflexivity. }
  - eapply (Hfill table2 "text" None None (started [answer 503 loading])).
    apply run_fst. vm_compute. reflexivity.
  - eapply (Hsum table2 "text" None None None (started [answer 503 loading])
              _ "error"
              (JStr "Model facebook/bart-large-cnn is currently loading")
              [("estimated_time", JFloat 20.5)]).
    apply run_fst. vm_compute. reflexivity.
Defined.

Lemma summarization_in_df_predictions_witness :
  let st := started [answer 200 summaries2] in
  summarization_in_df table2 "text" None None None st
  = (Ok (mkDataFrame (index_len table2)
           (dict_set "predictions" (map JStr ["A tower."; "Affection."])
              (columns table2))),
     snd (_query_in_df table2 "text" None None None (Some "summarization") st)).
Proof.
  apply (summarization_in_df_predictions (started [answer 200 summaries2])
           table2 "text" None None None
           [JDict [("summary_text", JStr "A tower.")];
            JDict [("summary_text", JStr "Affection.")]]
           ["A tower."; "Affection."]).
  - apply run_fst. vm_compute. reflexivity.
  - repeat constructor.
  - reflexivity.
Defined.

Lemma text_classification_in_df_predictions_witness :
  let st := started [answer 200 sentiments2] in
  let model := Some "distilbert-base-uncased-finetuned-sst-2-english" in
  text_classification_in_df table2 "text" None model st
  = (Ok (mkDataFrame (index_len table2)
           (dict_set "predictions" (map JStr ["NEGATIVE"; "POSITIVE"])
              (columns table2))),
     snd (_query_in_df table2 "text" None None model
            (Some "text-classification") st)).
Proof.
  apply (text_classification_in_df_predictions
           (started [answer 200 sentiments2]) table2 "text" None
           (Some "distilbert-base-uncased-finetuned-sst-2-english")
           [sentiment "NEGATIVE" "POSITIVE"; sentiment "POSITIVE" "NEGATIVE"]
           ["NEGATIVE"; "POSITIVE"]).
  - apply run_fst. vm_compute. reflexivity.
  - repeat constructor; eexists _, _; split; reflexivity.
  - reflexivity.
Defined.

Lemma fill_mask_in_df_empty_answer_witness :
  let st := started [answer 200 (JList [])] in
  fill_mask_in_df table0 "text" None None st
  = (Raise IndexError,
     snd (_query_in_df table0 "text" None None None (Some "fill-mask") st)).
Proof.
  apply (fill_mask_in_df_empty_answer (started [answer 200 (JList [])]) table0
           "text" None None).
  apply run_fst. vm_compute. reflexivity.
Defined.

Lemma zero_shot_classification_twice_overwrites_witness :
  let st := with_caller_dict [answer 200 verdict; answer 200 verdict] in
  let st1 := snd (zero_shot_classification (JStr "Where is my parcel?")
                    (JList [JStr "shipping"; JStr "billing"])
                    (Passed (Some 1)) None None st) in
  let st2 := snd (zero_shot_classification complaint labels (Passed (Some 1))
                    None None st1) in
  heap st2 = <[1 := dict_set "candidate_labels" labels caller_dict]> (heap st).
Proof.
  apply (zero_shot_classification_twice_overwrites
           (with_caller_dict [answer 200 verdict; answer 200 verdict]) 1
           caller_dict).
  reflexivity.
Defined.

Lemma zero_shot_classification_writes_then_fails_witness :
  let st := bare [answer 200 verdict] in
  zero_shot_classification complaint labels (Passed (Some 1)) None None st
  = (Raise KeyError,
     set_heap (<[1 := dict_set "candidate_labels" labels caller_dict]> (heap st))
       st).
Proof.
  apply (zero_shot_classification_writes_then_fails (bare [answer 200 verdict])
           complaint labels 1 caller_dict None);
    reflexivity.
Defined.

Lemma zero_shot_classification_aliased_witness :
  let st := with_caller_dict [answer 200 verdict] in
  exists r body written,
    sent_by (zero_shot_classification complaint labels (Passed (Some 1))
               (Some 1) None) st = [r]
    /\ req_data r = json_dumps (JDict body)
    /\ written = JDict (dict_set "candidate_labels" labels caller_dict)
    /\ body = envelope complaint (Some written) (Some written).
Proof.
  apply (zero_shot_classification_aliased
           (with_caller_dict [answer 200 verdict]) complaint labels 1
           caller_dict None "facebook/bart-large-mnli");
    reflexivity.
Defined.

Lemma conversational_inputs_witness :
  let st := started [answer 200 verdict] in
  let past := JList [JStr "Which movie is the best ?"] in
  exists r inputs,
    sent_by (conversational (JStr "Can you explain why ?") (Some past) None
               None None (Some "microsoft/DialoGPT-large")) st = [r]
    /\ req_data r
       = json_dumps
           (JDict (envelope (JDict inputs) (arg_value (heap st) None)
                     (arg_value (heap st) None)))
    /\ inputs = conversation (JStr "Can you explain why ?") (Some past) None
    /\ dict_get "text" inputs = Some (JStr "Can you explain why ?")
    /\ dict_get "past_user_inputs" inputs = Some past
    /\ dict_get "generated_responses" inputs = None.
Proof.
  apply (conversational_inputs (started [answer 200 verdict])
           (JStr "Can you explain why ?")
           (Some (JList [JStr "Which movie is the best ?"])) None None None
           (Some "microsoft/DialoGPT-large") "microsoft/DialoGPT-large");
    [reflexivity|exact I|exact I].
Defined.

Lemma query_failure_propagates_witness :
  let st := started [bad_gateway] in
  let call := _query (JStr "The sky is [MASK].") None None None
                (Some "fill-mask") in
  fst (call st) = Raise JSONDecodeError
  /\ sent_by call st
     = [request_of (client st) "bert-base-uncased"
          (envelope (JStr "The sky is [MASK].") (arg_value (heap st) None)
             (arg_value (heap st) None))]
  /\ heap (snd (call st)) = heap st.
Proof.
  apply (query_failure_propagates (started [bad_gateway])
           (JStr "The sky is [MASK].") None None None (Some "fill-mask")
           "bert-base-uncased" JSONDecodeError);
    [reflexivity|exact I|exact I|].
  right. exists (mkResponse 502 (encode "<html>502 Bad Gateway</html>")).
  split; [reflexivity|]. right. exists "<html>502 Bad Gateway</html>".
  split; vm_compute; reflexivity.
Defined.

Lemma client_stays_as_constructed_witness :
  let st := after_one_call [answer 200 verdict] in
  api_token (client st) = "hf_token" /\ config (client st) = cfg.
Proof.
  apply (client_stays_as_constructed (RT := runtime) "hf_token" cfg
           ([answer 200 verdict] : script)).
  apply rtc_once. apply step_call.
Defined.
End ExtrasConcrete.
